(** * Reservation and settlement engine of the storefront bot

    A shallow embedding of the basket, expiry, discount and settlement code
    of [user.py], [utils.py] and [payment.py], and the properties of the
    engine checked against it.

    Conventions of the embedding.
    - The SQLite tables are lists of rows (records); an [UPDATE ... WHERE]
      maps over the rows and its [rowcount] is the number of rows matched.
    - Amounts and timestamps are Python floats (and [Decimal]s converted
      with [float]) in the source; they are exact rationals ([Q]) here,
      compared with [Qle_bool] and [Qeq_bool].  Binary rounding error is
      outside the model; [round(x, 2)] is rounding to the nearest hundredth
      with ties to the even neighbour.
    - The [basket] column is the comma separated text [id:timestamp,...];
      it is kept as the list of its well-formed items, the empty text being
      the empty list.
    - [context.user_data] is the per-shopper session record [user_data].
    - A transaction works on a copy of the database; [conn.rollback()]
      returns the database the transaction started from.  Failures of
      SQLite itself (the [except sqlite3.Error] branches) are not modelled.
    - Sending Telegram messages has no effect on the state; the messages
      that report an outcome are kept as values of type [message]. *)

From Stdlib Require Import ZArith QArith Qround Qminmax List String Bool Lia Lqa.
Import ListNotations.

Open Scope Z_scope.

(** ** Data model *)

(** A row of [products] (the columns the engine reads or writes). *)
Record product := mkProduct {
  p_id : Z;
  p_city : string;
  p_district : string;
  p_product_type : string;
  p_size : string;
  p_name : string;
  p_price : Q;
  p_available : Z;
  p_reserved : Z;
  p_original_text : option string
}.

(** An item [id:timestamp] of the [basket] column. *)
Abbreviation basket_entry := (Z * Q)%type (only parsing).

(** A row of [users]. *)
Record user_row := mkUser {
  u_user_id : Z;
  u_balance : Q;
  u_total_purchases : Z;
  u_basket : list basket_entry
}.

(** A row of [purchases]. *)
Record purchase := mkPurchase {
  pu_user_id : Z;
  pu_product_id : Z;
  pu_product_name : string;
  pu_product_type : string;
  pu_product_size : string;
  pu_price_paid : Q;
  pu_city : string;
  pu_district : string;
  pu_purchase_date : Q
}.

(** The text of [expiry_date]: what [datetime.fromisoformat] makes of it. *)
Inductive iso_text :=
| IsoTime (t : Q)
| IsoMalformed.

(** A row of [discount_codes]. *)
Record discount_code := mkCode {
  dc_code : string;
  dc_discount_type : string;
  dc_value : Q;
  dc_is_active : bool;
  dc_max_uses : option Z;
  dc_uses_count : Z;
  dc_expiry_date : option iso_text
}.

Record database := mkDb {
  products : list product;
  users : list user_row;
  purchases : list purchase;
  discount_codes : list discount_code
}.

(** An item of [context.user_data['basket']]. *)
Record basket_item := mkItem {
  bi_product_id : Z;
  bi_price : Q;
  bi_timestamp : Q
}.

(** [context.user_data['applied_discount']]. *)
Record applied_discount_info := mkApplied {
  ad_code : string;
  ad_amount : Q;
  ad_final_total : Q
}.

(** [context.user_data['pending_payment']]. *)
Record pending_payment_info := mkPending {
  pp_invoice_id : Z;
  pp_type : string;
  pp_fiat_total : option Q
}.

Record user_data := mkUserData {
  basket : list basket_item;
  applied_discount : option applied_discount_info;
  pending_payment : option pending_payment_info
}.

Definition empty_user_data : user_data := mkUserData [] None None.

(** ** Comparisons on amounts and times *)

Definition Qlt_bool (a b : Q) : bool := negb (Qle_bool b a).

(** Python's [min(a, b)] and [max(a, b)]: the first argument wins a tie. *)
Definition py_min (a b : Q) : Q := if Qlt_bool b a then b else a.
Definition py_max (a b : Q) : Q := if Qlt_bool a b then b else a.

(** ** Rounding to currency precision *)

(** Nearest integer, ties to even. *)
Definition round_half_even (x : Q) : Z :=
  let f := Qfloor x in
  let r := (x - inject_Z f)%Q in
  if Qlt_bool r (1 # 2) then f
  else if Qlt_bool (1 # 2) r then f + 1
  else if Z.even f then f else f + 1.

(** [round(x, 2)]. *)
Definition round2 (x : Q) : Q := (round_half_even (x * 100) # 100)%Q.

(** ** Statements on tables *)

(** [rowcount] of an [UPDATE ... WHERE cond]. *)
Definition rowcount {A : Type} (cond : A -> bool) (rows : list A) : Z :=
  Z.of_nat (List.length (filter cond rows)).

(** [UPDATE ... SET ... WHERE cond]. *)
Definition update_rows {A : Type} (cond : A -> bool) (set : A -> A)
    (rows : list A) : list A :=
  map (fun r => if cond r then set r else r) rows.

(** [DELETE FROM ... WHERE cond]. *)
Definition delete_rows {A : Type} (cond : A -> bool) (rows : list A) : list A :=
  filter (fun r => negb (cond r)) rows.

Definition has_id (pid : Z) (p : product) : bool := p_id p =? pid.
Definition is_user (uid : Z) (u : user_row) : bool := u_user_id u =? uid.
Definition is_code (code : string) (c : discount_code) : bool :=
  String.eqb (dc_code c) code.

Definition set_reserved (v : Z) (p : product) : product :=
  mkProduct (p_id p) (p_city p) (p_district p) (p_product_type p) (p_size p)
    (p_name p) (p_price p) (p_available p) v (p_original_text p).

Definition set_available (v : Z) (p : product) : product :=
  mkProduct (p_id p) (p_city p) (p_district p) (p_product_type p) (p_size p)
    (p_name p) (p_price p) v (p_reserved p) (p_original_text p).

Definition set_basket (b : list basket_entry) (u : user_row) : user_row :=
  mkUser (u_user_id u) (u_balance u) (u_total_purchases u) b.

Definition set_balance (v : Q) (u : user_row) : user_row :=
  mkUser (u_user_id u) v (u_total_purchases u) (u_basket u).

Definition set_total_purchases (v : Z) (u : user_row) : user_row :=
  mkUser (u_user_id u) (u_balance u) v (u_basket u).

Definition set_uses_count (v : Z) (c : discount_code) : discount_code :=
  mkCode (dc_code c) (dc_discount_type c) (dc_value c) (dc_is_active c)
    (dc_max_uses c) v (dc_expiry_date c).

Definition with_products (ps : list product) (db : database) : database :=
  mkDb ps (users db) (purchases db) (discount_codes db).

Definition with_users (us : list user_row) (db : database) : database :=
  mkDb (products db) us (purchases db) (discount_codes db).

Definition with_purchases (l : list purchase) (db : database) : database :=
  mkDb (products db) (users db) l (discount_codes db).

Definition with_discount_codes (l : list discount_code) (db : database)
  : database :=
  mkDb (products db) (users db) (purchases db) l.

Definition with_basket (b : list basket_item) (ud : user_data) : user_data :=
  mkUserData b (applied_discount ud) (pending_payment ud).

Definition with_applied_discount (a : option applied_discount_info)
    (ud : user_data) : user_data :=
  mkUserData (basket ud) a (pending_payment ud).

Definition with_pending_payment (pp : option pending_payment_info)
    (ud : user_data) : user_data :=
  mkUserData (basket ud) (applied_discount ud) pp.

(** [SELECT ... FROM products WHERE id = ?] with [fetchone]; also the lookup
    in a dictionary [{row['id']: row}] built from a [SELECT ... WHERE id IN]. *)
Definition select_product (ps : list product) (pid : Z) : option product :=
  find (has_id pid) ps.

(** [SELECT ... FROM users WHERE user_id = ?] with [fetchone]. *)
Definition select_user (db : database) (uid : Z) : option user_row :=
  find (is_user uid) (users db).

(** [result['basket'] if result else ''] *)
Definition select_basket (db : database) (uid : Z) : list basket_entry :=
  match select_user db uid with
  | Some u => u_basket u
  | None => []
  end.

(** [UPDATE products SET reserved = MAX(0, reserved - ?) WHERE id = ?] *)
Definition release (count pid : Z) (ps : list product) : list product :=
  update_rows (has_id pid)
    (fun p => set_reserved (Z.max 0 (p_reserved p - count)) p) ps.

(** [UPDATE users SET basket = ? WHERE user_id = ?] *)
Definition store_basket (b : list basket_entry) (uid : Z)
    (us : list user_row) : list user_row :=
  update_rows (is_user uid) (set_basket b) us.

(** [collections.Counter]: keys in order of first insertion. *)
Fixpoint counter_add (k : Z) (c : list (Z * Z)) : list (Z * Z) :=
  match c with
  | [] => [(k, 1)]
  | (k', n) :: c' =>
      if k' =? k then (k', n + 1) :: c' else (k', n) :: counter_add k c'
  end.

Definition Counter (keys : list Z) : list (Z * Z) :=
  fold_left (fun c k => counter_add k c) keys [].

(** [executemany] of [release] over [(count, pid) for pid, count in
    counts.items()]. *)
Definition release_counts (counts : list (Z * Z)) (ps : list product)
  : list product :=
  fold_left (fun acc kc => release (snd kc) (fst kc) acc) counts ps.

(** ** Discount validation ([user.py], [validate_discount_code]) *)

(** The [details] dictionary of a successful validation. *)
Record discount_details := mkDetails {
  dd_code : string;
  dd_type : string;
  dd_value : Q;
  dd_discount_amount : Q;
  dd_final_total : Q
}.

(** The triple [(is_valid, message, details)], one constructor per message. *)
Inductive validation :=
| NoCodeProvided
| CodeNotFound
| CodeInactive
| CodeExpired
| InvalidExpiryData
| UsageLimitReached
| UnknownDiscountType
| CodeApplied (details : discount_details).

(** [SELECT * FROM discount_codes WHERE code = ?] with [fetchone]. *)
Definition select_discount_code (db : database) (code_text : string)
  : option discount_code :=
  find (is_code code_text) (discount_codes db).

(** The [expiry_date] rule: [None] when the rule passes. *)
Definition expiry_failure (code_data : discount_code) (now : Q)
  : option validation :=
  match dc_expiry_date code_data with
  | None => None
  | Some IsoMalformed => Some InvalidExpiryData
  | Some (IsoTime expiry_dt) =>
      if Qlt_bool expiry_dt now then Some CodeExpired else None
  end.

Definition max_uses_reached (code_data : discount_code) : bool :=
  match dc_max_uses code_data with
  | Some m => m <=? dc_uses_count code_data
  | None => false
  end.

(** The amount before clamping: [(total * value) / 100.0] or [float(value)]. *)
Definition raw_discount (dtype : string) (value total : Q) : option Q :=
  if String.eqb dtype "percentage" then Some ((total * value) / 100)%Q
  else if String.eqb dtype "fixed" then Some value
  else None.

Definition validate_discount_code
    (db : database) (code_text : string) (current_total now : Q) : validation :=
  if String.eqb code_text "" then NoCodeProvided else
  match select_discount_code db code_text with
  | None => CodeNotFound
  | Some code_data =>
    if negb (dc_is_active code_data) then CodeInactive else
    match expiry_failure code_data now with
    | Some failure => failure
    | None =>
      if max_uses_reached code_data then UsageLimitReached else
      match raw_discount (dc_discount_type code_data) (dc_value code_data)
              current_total with
      | None => UnknownDiscountType
      | Some amount =>
          let discount_amount := py_min amount current_total in
          let final_total := py_max 0 (current_total - discount_amount) in
          CodeApplied (mkDetails (dc_code code_data)
                         (dc_discount_type code_data) (dc_value code_data)
                         (round2 discount_amount) (round2 final_total))
      end
    end
  end.

(** [sum(item['price'] for item in basket)] *)
Definition basket_total (b : list basket_item) : Q :=
  fold_left (fun acc item => (acc + bi_price item)%Q) b 0%Q.

Section Engine.

(** [BASKET_TIMEOUT] of [utils.py]: seconds, read from the environment
    (15 minutes unless configured). *)
Variable BASKET_TIMEOUT : Z.

(** ** Expiry sweeps ([utils.py]) *)

(** [current_time - timestamp <= BASKET_TIMEOUT] *)
Definition is_live (current_time : Q) (entry : basket_entry) : bool :=
  Qle_bool (current_time - snd entry) (inject_Z BASKET_TIMEOUT).

Definition is_expired (current_time : Q) (entry : basket_entry) : bool :=
  negb (is_live current_time entry).

(** The item put in the session basket for a live entry whose product has
    a price in [product_prices]. *)
Definition userdata_item (ps : list product) (entry : basket_entry)
  : list basket_item :=
  match select_product ps (fst entry) with
  | Some p => [mkItem (fst entry) (p_price p) (snd entry)]
  | None => []
  end.

(** [clear_expired_basket(context, user_id)], the lazy sweep. *)
Definition clear_expired_basket (db : database) (ud : user_data)
    (user_id : Z) (current_time : Q) : database * user_data :=
  match select_basket db user_id with
  | [] => (db, with_applied_discount None (with_basket [] ud))
  | items =>
      let valid_items_str_list := filter (is_live current_time) items in
      let valid_items_userdata_list :=
        flat_map (userdata_item (products db)) valid_items_str_list in
      let expired := filter (is_expired current_time) items in
      let expired_product_ids_counts := Counter (map fst expired) in
      let db' :=
        match expired with
        | [] => db
        | _ =>
            with_products
              (release_counts expired_product_ids_counts (products db))
              (with_users
                 (store_basket valid_items_str_list user_id (users db)) db)
        end in
      let ud' := with_basket valid_items_userdata_list ud in
      (db', match valid_items_userdata_list with
            | [] => with_applied_discount None ud'
            | _ => ud'
            end)
  end.

(** The [(new_basket_str, user_id)] updates of the global sweep: one for
    each shopper with a non-empty basket that holds an expired entry. *)
Definition user_basket_updates (current_time : Q) (us : list user_row)
  : list (list basket_entry * Z) :=
  flat_map
    (fun u =>
       match u_basket u with
       | [] => []
       | items =>
           match filter (is_expired current_time) items with
           | [] => []
           | _ => [(filter (is_live current_time) items, u_user_id u)]
           end
       end) us.

(** The entries the global sweep finds expired, in scan order. *)
Definition all_expired (current_time : Q) (us : list user_row)
  : list basket_entry :=
  flat_map (fun u => filter (is_expired current_time) (u_basket u)) us.

(** [clear_all_expired_baskets()], the global sweep. *)
Definition clear_all_expired_baskets (db : database) (current_time : Q)
  : database :=
  let all_expired_product_counts :=
    Counter (map fst (all_expired current_time (users db))) in
  let us :=
    fold_left (fun acc upd => store_basket (fst upd) (snd upd) acc)
      (user_basket_updates current_time (users db)) (users db) in
  with_products (release_counts all_expired_product_counts (products db))
    (with_users us db).

(** ** Basket handlers ([user.py]) *)

Inductive add_result :=
| Reserved (product_id : Z)
| OutOfStock.

(** The [WHERE] clause of the reservation query. *)
Definition matches_free (city district p_type size : string) (price : Q)
    (p : product) : bool :=
  String.eqb (p_city p) city && String.eqb (p_district p) district
  && String.eqb (p_product_type p) p_type && String.eqb (p_size p) size
  && Qeq_bool (p_price p) price && (p_reserved p <? p_available p).

(** [ORDER BY id LIMIT 1] *)
Definition first_by_id (rows : list product) : option product :=
  fold_left
    (fun best p =>
       match best with
       | None => Some p
       | Some q => if p_id p <? p_id q then Some p else Some q
       end) rows None.

(** The discount shown after a change of the basket: the stored amount and
    total follow a code that is still valid. *)
Definition refresh_applied_amounts (db : database) (ud : user_data)
    (now : Q) : user_data :=
  match applied_discount ud with
  | None => ud
  | Some info =>
      match validate_discount_code db (ad_code info)
              (basket_total (basket ud)) now with
      | CodeApplied d =>
          with_applied_discount
            (Some (mkApplied (ad_code info) (dd_discount_amount d)
                     (dd_final_total d))) ud
      | _ => ud
      end
  end.

(** [handle_add_to_basket], from [BEGIN EXCLUSIVE] on; [timestamp] is
    [time.time()]. *)
Definition handle_add_to_basket (db : database) (ud : user_data)
    (user_id : Z) (city district p_type size : string) (price : Q)
    (timestamp : Q) : database * user_data * add_result :=
  match first_by_id
          (filter (matches_free city district p_type size price)
             (products db)) with
  | None => (db, ud, OutOfStock)
  | Some product_row =>
      let product_id_reserved := p_id product_row in
      let ps :=
        update_rows (has_id product_id_reserved)
          (fun p => set_reserved (p_reserved p + 1) p) (products db) in
      let new_basket :=
        select_basket db user_id ++ [(product_id_reserved, timestamp)] in
      let db' :=
        with_products ps
          (with_users (store_basket new_basket user_id (users db)) db) in
      let ud' :=
        with_basket
          (basket ud ++ [mkItem product_id_reserved price timestamp]) ud in
      (db', refresh_applied_amounts db' ud' timestamp,
       Reserved product_id_reserved)
  end.

(** The list without its first element satisfying [f]. *)
Fixpoint remove_first {A : Type} (f : A -> bool) (l : list A) : list A :=
  match l with
  | [] => []
  | x :: r => if f x then r else x :: remove_first f r
  end.

(** Equality of the texts [id:timestamp]. *)
Definition entry_eqb (a b : basket_entry) : bool :=
  (fst a =? fst b) && Qeq_bool (snd a) (snd b).

(** The revalidation of the applied discount after a removal. *)
Definition revalidate_after_removal (db : database) (ud : user_data)
    (now : Q) : user_data :=
  match basket ud with
  | [] => with_applied_discount None ud
  | _ =>
      match applied_discount ud with
      | None => ud
      | Some info =>
          match validate_discount_code db (ad_code info)
                  (basket_total (basket ud)) now with
          | CodeApplied _ => ud
          | _ => with_applied_discount None ud
          end
      end
  end.

(** [handle_remove_from_basket], up to the closing refresh of the basket
    view (which is [handle_view_basket] below). *)
Definition handle_remove_from_basket (db : database) (ud : user_data)
    (user_id product_id_to_remove : Z) (now : Q) : database * user_data :=
  let current_basket_context := basket ud in
  let matches item := bi_product_id item =? product_id_to_remove in
  match find matches current_basket_context with
  | None => (db, revalidate_after_removal db ud now)
  | Some item =>
      let item_to_remove_str := (bi_product_id item, bi_timestamp item) in
      let new_basket_context := remove_first matches current_basket_context in
      let ps := release 1 product_id_to_remove (products db) in
      let db_basket := select_basket db user_id in
      let us :=
        if existsb (entry_eqb item_to_remove_str) db_basket
        then store_basket
               (remove_first (entry_eqb item_to_remove_str) db_basket)
               user_id (users db)
        else users db in
      let db' := with_products ps (with_users us db) in
      (db', revalidate_after_removal db'
              (with_basket new_basket_context ud) now)
  end.

(** [handle_clear_basket], up to its confirmation message. *)
Definition handle_clear_basket (db : database) (ud : user_data)
    (user_id : Z) : database * user_data :=
  match basket ud with
  | [] => (db, ud)
  | current_basket_context =>
      let product_ids_to_release_counts :=
        Counter (map bi_product_id current_basket_context) in
      let db' :=
        with_products
          (release_counts product_ids_to_release_counts (products db))
          (with_users (store_basket [] user_id (users db)) db) in
      (db', with_applied_discount None (with_basket [] ud))
  end.

(** The state effects of [handle_view_basket]. *)
Definition handle_view_basket (db : database) (ud : user_data)
    (user_id : Z) (now : Q) : database * user_data :=
  let '(db1, ud1) := clear_expired_basket db ud user_id now in
  match basket ud1 with
  | [] => (db1, with_applied_discount None ud1)
  | items =>
      let shown :=
        flat_map (fun item =>
                    match select_product (products db1) (bi_product_id item)
                    with Some p => [p_price p] | None => [] end) items in
      match shown with
      | [] => (db1, with_basket [] (with_applied_discount None ud1))
      | _ =>
          let original_total := fold_left Qplus shown 0%Q in
          match applied_discount ud1 with
          | None => (db1, ud1)
          | Some info =>
              match validate_discount_code db1 (ad_code info)
                      original_total now with
              | CodeApplied d =>
                  (db1, with_applied_discount
                          (Some (mkApplied (ad_code info)
                                   (dd_discount_amount d)
                                   (dd_final_total d))) ud1)
              | _ => (db1, with_applied_discount None ud1)
              end
          end
      end
  end.

(** ** Settlement from the balance ([payment.py]) *)

(** An entry of [sold_out_during_process]: [Item ID <id> (unavailable)] or
    [<name> <size>]. *)
Inductive sold_out_entry :=
| ItemUnavailable (product_id : Z)
| ItemSoldOut (name size : string).

(** The messages that report the outcome of a settlement. *)
Inductive message :=
| BalanceChangedError
| OrderFailedAllSoldOut
| PurchaseSuccess
| PickupDetails (product_id : Z) (text : option string)
| PurchaseDetailsSent (sold_out_note : list sold_out_entry).

(** The variables of the loop over the snapshot, with the products table of
    the open transaction. *)
Record purchase_loop := mkLoop {
  loop_products : list product;
  sold_out_during_process : list sold_out_entry;
  purchases_to_insert : list purchase;
  processed_product_ids : list Z
}.

(** One round of [for item_snapshot in basket_snapshot]. *)
Definition process_item (user_id : Z) (product_db_details : list product)
    (purchase_time : Q) (st : purchase_loop) (item_snapshot : basket_item)
  : purchase_loop :=
  let product_id := bi_product_id item_snapshot in
  match select_product product_db_details product_id with
  | None =>
      mkLoop (loop_products st)
        (sold_out_during_process st ++ [ItemUnavailable product_id])
        (purchases_to_insert st) (processed_product_ids st)
  | Some details =>
      let sold_out :=
        sold_out_during_process st
        ++ [ItemSoldOut (p_name details) (p_size details)] in
      if rowcount (has_id product_id) (loop_products st) =? 0 then
        mkLoop (loop_products st) sold_out
          (purchases_to_insert st) (processed_product_ids st)
      else
        let ps1 := release 1 product_id (loop_products st) in
        let can_sell p := has_id product_id p && (0 <? p_available p) in
        if rowcount can_sell ps1 =? 0 then
          mkLoop
            (update_rows (has_id product_id)
               (fun p => set_reserved (p_reserved p + 1) p) ps1)
            sold_out (purchases_to_insert st) (processed_product_ids st)
        else
          mkLoop
            (update_rows can_sell
               (fun p => set_available (p_available p - 1) p) ps1)
            (sold_out_during_process st)
            (purchases_to_insert st
             ++ [mkPurchase user_id product_id (p_name details)
                   (p_product_type details) (p_size details)
                   (p_price details) (p_city details) (p_district details)
                   purchase_time])
            (processed_product_ids st ++ [product_id])
  end.

Definition process_items (user_id : Z) (ps : list product)
    (purchase_time : Q) (basket_snapshot : list basket_item)
  : purchase_loop :=
  fold_left (process_item user_id ps purchase_time) basket_snapshot
    (mkLoop ps [] [] []).

(** How the transaction of [process_purchase_with_balance] ended. *)
Inductive transaction_end :=
| Rejected
| InsufficientBalance
| DeductionFailed
| NothingProcessed
| Committed.

Record transaction_result := mkTx {
  tx_end : transaction_end;
  tx_db : database;
  tx_sold_out : list sold_out_entry;
  tx_processed : list Z;
  tx_details : list product
}.

(** [UPDATE discount_codes SET uses_count = uses_count + 1 WHERE code = ?],
    run when a code was used. *)
Definition count_use (discount_code_used : option string)
    (codes : list discount_code) : list discount_code :=
  match discount_code_used with
  | Some code =>
      if String.eqb code "" then codes
      else update_rows (is_code code)
             (fun c => set_uses_count (dc_uses_count c + 1) c) codes
  | None => codes
  end.

(** The transaction of [process_purchase_with_balance]: from the guards on
    the arguments to [conn.commit()] or [conn.rollback()].  [tx_db] is the
    database the other connections see when it has ended. *)
Definition purchase_transaction (db : database) (user_id : Z)
    (amount_to_deduct : Q) (basket_snapshot : list basket_item)
    (discount_code_used : option string) (purchase_time : Q)
  : transaction_result :=
  match basket_snapshot with
  | [] => mkTx Rejected db [] [] []
  | _ =>
  if Qlt_bool amount_to_deduct 0 then mkTx Rejected db [] [] [] else
  match select_user db user_id with
  | None => mkTx InsufficientBalance db [] [] []
  | Some current_balance_result =>
    if Qlt_bool (u_balance current_balance_result) amount_to_deduct
    then mkTx InsufficientBalance db [] [] []
    else if rowcount (is_user user_id) (users db) =? 0
    then mkTx DeductionFailed db [] [] []
    else
      let us1 :=
        update_rows (is_user user_id)
          (fun u => set_balance (u_balance u - amount_to_deduct)%Q u)
          (users db) in
      let st :=
        process_items user_id (products db) purchase_time basket_snapshot in
      match purchases_to_insert st with
      | [] =>
          mkTx NothingProcessed db (sold_out_during_process st) []
            (products db)
      | inserted =>
          let us2 :=
            update_rows (is_user user_id)
              (fun u =>
                 set_total_purchases
                   (u_total_purchases u + Z.of_nat (List.length inserted)) u)
              us1 in
          let us3 := store_basket [] user_id us2 in
          mkTx Committed
            (mkDb (loop_products st) us3 (purchases db ++ inserted)
               (count_use discount_code_used (discount_codes db)))
            (sold_out_during_process st) (processed_product_ids st)
            (products db)
      end
  end
  end.

(** [DELETE FROM products WHERE id = ?], committed on a connection of its
    own for each purchased product, after its pickup details were sent. *)
Definition delete_product (db : database) (prod_id : Z) : database :=
  with_products (delete_rows (has_id prod_id) (products db)) db.

Definition delete_purchased (db : database) (processed : list Z) : database :=
  fold_left delete_product processed db.

Definition pickup_messages (details : list product) (processed : list Z)
  : list message :=
  flat_map
    (fun prod_id =>
       match select_product details prod_id with
       | Some p => [PickupDetails prod_id (p_original_text p)]
       | None => []
       end) processed.

Record purchase_result := mkResult {
  pr_success : bool;
  pr_db : database;
  pr_user_data : user_data;
  pr_messages : list message
}.

(** [process_purchase_with_balance]: the transaction, then the messages and
    the deletion of the purchased products, then the session. *)
Definition process_purchase_with_balance (db : database) (ud : user_data)
    (user_id : Z) (amount_to_deduct : Q) (basket_snapshot : list basket_item)
    (discount_code_used : option string) (purchase_time : Q)
  : purchase_result :=
  let tx :=
    purchase_transaction db user_id amount_to_deduct basket_snapshot
      discount_code_used purchase_time in
  match tx_end tx with
  | Rejected => mkResult false (tx_db tx) ud []
  | InsufficientBalance => mkResult false (tx_db tx) ud [BalanceChangedError]
  | DeductionFailed => mkResult false (tx_db tx) ud []
  | NothingProcessed => mkResult false (tx_db tx) ud [OrderFailedAllSoldOut]
  | Committed =>
      mkResult true
        (delete_purchased (tx_db tx) (tx_processed tx))
        (with_applied_discount None (with_basket [] ud))
        (PurchaseSuccess
         :: pickup_messages (tx_details tx) (tx_processed tx)
         ++ [PurchaseDetailsSent (tx_sold_out tx)])
  end.

(** What [handle_confirm_pay] answers. *)
Inductive checkout :=
| BasketIsEmpty
| AllItemsUnavailable
| NegativeAmount
| InsufficientFunds (required balance : Q)
| PaidWithBalance (amount : Q) (result : purchase_result).

(** Steps 1 to 3 of [handle_confirm_pay]: either an early answer, or the
    arguments of the call of [process_purchase_with_balance]. *)
Inductive checkout_plan :=
| Answer (db : database) (ud : user_data) (c : checkout)
| Pay (db : database) (ud : user_data) (final_total : Q)
    (valid_basket_items_snapshot : list basket_item)
    (discount_code_to_use : option string).

(** The snapshot line of a basket item whose product still has a row: the
    item with [price_at_checkout] from the database. *)
Definition snapshot_line (ps : list product) (item : basket_item)
  : list basket_item :=
  match select_product ps (bi_product_id item) with
  | Some p => [mkItem (bi_product_id item) (p_price p) (bi_timestamp item)]
  | None => []
  end.

(** The total to pay and the code to count, from the applied discount. *)
Definition checkout_total (db : database) (ud : user_data)
    (original_total now : Q) : Q * option string * user_data :=
  match applied_discount ud with
  | None => (original_total, None, ud)
  | Some info =>
      match validate_discount_code db (ad_code info) original_total now with
      | CodeApplied d =>
          (dd_final_total d, Some (ad_code info),
           with_applied_discount
             (Some (mkApplied (ad_code info) (dd_discount_amount d)
                      (dd_final_total d))) ud)
      | _ => (original_total, None, with_applied_discount None ud)
      end
  end.

Definition prepare_checkout (db : database) (ud : user_data) (user_id : Z)
    (now : Q) : checkout_plan :=
  let '(db1, ud1) := clear_expired_basket db ud user_id now in
  match basket ud1 with
  | [] =>
      let '(db2, ud2) := handle_view_basket db1 ud1 user_id now in
      Answer db2 ud2 BasketIsEmpty
  | items =>
      let valid_basket_items_snapshot :=
        flat_map (snapshot_line (products db1)) items in
      match valid_basket_items_snapshot with
      | [] =>
          Answer db1 (with_applied_discount None (with_basket [] ud1))
            AllItemsUnavailable
      | _ =>
          let original_total := basket_total valid_basket_items_snapshot in
          let '(final_total, discount_code_to_use, ud2) :=
            checkout_total db1 ud1 original_total now in
          if Qlt_bool final_total 0 then Answer db1 ud2 NegativeAmount else
          let user_balance :=
            match select_user db1 user_id with
            | Some u => u_balance u
            | None => 0%Q
            end in
          if Qle_bool final_total user_balance
          then Pay db1 ud2 final_total valid_basket_items_snapshot
                 discount_code_to_use
          else Answer db1 ud2 (InsufficientFunds final_total user_balance)
      end
  end.

(** [handle_confirm_pay], the checkout. *)
Definition handle_confirm_pay (db : database) (ud : user_data) (user_id : Z)
    (now : Q) : database * user_data * checkout :=
  match prepare_checkout db ud user_id now with
  | Answer db1 ud1 c => (db1, ud1, c)
  | Pay db1 ud2 final_total snapshot code =>
      let r :=
        process_purchase_with_balance db1 ud2 user_id final_total snapshot
          code now in
      if pr_success r
      then (pr_db r, pr_user_data r, PaidWithBalance final_total r)
      else
        let '(db3, ud3) :=
          handle_view_basket (pr_db r) (pr_user_data r) user_id now in
        (db3, ud3, PaidWithBalance final_total r)
  end.

(** ** Top-up settlement ([payment.py]) *)

(** [process_successful_refill]: the new database and the returned flag. *)
Definition process_successful_refill (db : database) (user_id : Z)
    (amount_to_add : Q) (invoice_id : Z) : database * bool :=
  if Qle_bool amount_to_add 0 then (db, false) else
  if rowcount (is_user user_id) (users db) =? 0 then (db, false) else
  let db' :=
    with_users
      (update_rows (is_user user_id)
         (fun u => set_balance (u_balance u + amount_to_add)%Q u) (users db))
      db in
  match select_user db' user_id with
  | Some _ => (db', true)
  | None => (db, false)
  end.

(** [process_successful_cryptobot_purchase]: the unused purchase flow. *)
Definition process_successful_cryptobot_purchase (db : database)
    (user_id : Z) : database * bool :=
  (db, false).

(** An invoice as the gateway reports it: [status.lower()] and
    [paid_fiat_amount]. *)
Record invoice := mkInvoice {
  inv_status : string;
  inv_paid_fiat_amount : option Q
}.

(** [handle_check_cryptobot_payment], from the lookup of the pending payment
    on; [invoices] is the answer of [get_invoices] for the invoice id. *)
Definition handle_check_cryptobot_payment (db : database) (ud : user_data)
    (user_id invoice_id_to_check : Z) (invoices : option invoice)
  : database * user_data :=
  let is_current_payment :=
    match pending_payment ud with
    | Some pp => pp_invoice_id pp =? invoice_id_to_check
    | None => false
    end in
  let pop_pending := with_pending_payment None ud in
  match invoices with
  | None => (db, ud)
  | Some inv =>
      if String.eqb (inv_status inv) "paid" then
        match pending_payment ud with
        | Some pp =>
            if negb is_current_payment then (db, ud)
            else if String.eqb (pp_type pp) "refill" then
              let amount_to_add :=
                match inv_paid_fiat_amount inv with
                | Some paid => Some paid
                | None => pp_fiat_total pp
                end in
              match amount_to_add with
              | None => (db, pop_pending)
              | Some amount =>
                  if Qle_bool amount 0 then (db, pop_pending)
                  else
                    let '(db', refill_success) :=
                      process_successful_refill db user_id amount
                        invoice_id_to_check in
                    if refill_success then (db', pop_pending) else (db', ud)
              end
            else if String.eqb (pp_type pp) "purchase" then
              let '(db', purchase_success) :=
                process_successful_cryptobot_purchase db user_id in
              if purchase_success
              then (db', with_basket []
                           (with_applied_discount None pop_pending))
              else (db', ud)
            else (db, pop_pending)
        | None => (db, ud)
        end
      else if String.eqb (inv_status inv) "expired" then
        (db, if is_current_payment then pop_pending else ud)
      else if String.eqb (inv_status inv) "active" then (db, ud)
      else (db, if is_current_payment then pop_pending else ud)
  end.

(** ** The engine as a transition system *)

(** The database and the sessions of the shoppers. *)
Record world := mkWorld {
  w_db : database;
  w_sessions : list (Z * user_data)
}.

Definition session (w : world) (user_id : Z) : user_data :=
  match find (fun s => fst s =? user_id) (w_sessions w) with
  | Some s => snd s
  | None => empty_user_data
  end.

Definition put_session (user_id : Z) (ud : user_data)
    (sessions : list (Z * user_data)) : list (Z * user_data) :=
  (user_id, ud) :: filter (fun s => negb (fst s =? user_id)) sessions.

Inductive operation :=
| AddToBasket (user_id : Z) (city district p_type size : string)
    (price : Q) (now : Q)
| RemoveFromBasket (user_id product_id : Z) (now : Q)
| ClearBasket (user_id : Z)
| LazySweep (user_id : Z) (now : Q)
| GlobalSweep (now : Q)
| Checkout (user_id : Z) (now : Q).

(** One operation of the engine, run to its end. *)
Definition run (w : world) (op : operation) : world :=
  match op with
  | AddToBasket u city district p_type size price now =>
      let '(db, ud, _) :=
        handle_add_to_basket (w_db w) (session w u) u city district p_type
          size price now in
      mkWorld db (put_session u ud (w_sessions w))
  | RemoveFromBasket u pid now =>
      let '(db, ud) :=
        handle_remove_from_basket (w_db w) (session w u) u pid now in
      mkWorld db (put_session u ud (w_sessions w))
  | ClearBasket u =>
      let '(db, ud) := handle_clear_basket (w_db w) (session w u) u in
      mkWorld db (put_session u ud (w_sessions w))
  | LazySweep u now =>
      let '(db, ud) := clear_expired_basket (w_db w) (session w u) u now in
      mkWorld db (put_session u ud (w_sessions w))
  | GlobalSweep now =>
      mkWorld (clear_all_expired_baskets (w_db w) now) (w_sessions w)
  | Checkout u now =>
      let '(db, ud, _) := handle_confirm_pay (w_db w) (session w u) u now in
      mkWorld db (put_session u ud (w_sessions w))
  end.

Definition run_all (w : world) (ops : list operation) : world :=
  fold_left run ops w.

End Engine.

(** The invariant of a lot: [0 <= reserved <= available]. *)
Definition lot_ok (p : product) : Prop :=
  0 <= p_reserved p /\ p_reserved p <= p_available p.

Definition lots_ok (db : database) : Prop := Forall lot_ok (products db).


(** ** Vocabulary of the properties *)

(** How often [k] occurs in [keys]. *)
Definition occurrences (k : Z) (keys : list Z) : Z :=
  rowcount (Z.eqb k) keys.

(** The sum of the counts stored for [k]. *)
Definition counted (k : Z) (counts : list (Z * Z)) : Z :=
  fold_right (fun kc acc => if fst kc =? k then snd kc + acc else acc) 0
    counts.

(** A row after [n] of its reservations were released. *)
Definition released_by (n : Z) (p : product) : product :=
  if n =? 0 then p else set_reserved (Z.max 0 (p_reserved p - n)) p.

(** A line of a snapshot whose lot has no row, or no unit left. *)
Definition unsettleable (ps : list product) (item : basket_item) : Prop :=
  forall p, In p ps -> p_id p = bi_product_id item -> p_available p <= 0.

(** A row of the open transaction against the row the transaction started
    from: the same lot, with as many units less as it was sold. *)
Definition sold_from (processed : list Z) (q p : product) : Prop :=
  p_id q = p_id p
  /\ p_available q = p_available p - occurrences (p_id p) processed.

(** ** The basket operations in the words of the specification *)


(** ** Sample rows *)


(** Scenario A: [SAVE10], ten per cent, on a subtotal of 12.50. *)
Definition save10 : discount_code :=
  mkCode "SAVE10" "percentage" 10 true None 0 None.

(** A single-unit lot of tea in the centre of Riga, at 10.00. *)
Definition tea (id reserved : Z) : product :=
  mkProduct id "Riga" "Centre" "tea" "10g" "tea 10g" 10 1 reserved None.

(** A shopper and the store with one lot that the shopper holds since
    time 0 (scenario D). *)
Definition holding_since_0 : database :=
  mkDb [tea 1 1] [mkUser 1 0 0 [(1, 0%Q)]] [] [].

Definition session_since_0 : user_data :=
  mkUserData [mkItem 1 10 0] None None.

(** Two shoppers, the first with a balance of 100, and one free lot. *)
Definition one_free_lot : world :=
  mkWorld (mkDb [tea 1 0] [mkUser 1 100 0 []; mkUser 2 0 0 []] [] []) [].

(** The shopper holds the only lot, bought at time 0, and has a balance of
    100. *)
Definition ready_to_pay : database :=
  mkDb [tea 1 1] [mkUser 1 100 0 [(1, 0%Q)]] [] [].

(** The lot of the shopper's hold was sold and its row deleted. *)
Definition lot_gone : database :=
  mkDb [] [mkUser 1 100 0 [(1, 0%Q)]] [] [].

(** Scenario C: the shopper holds two lots; the row of the second one was
    deleted by a settlement of another shopper. *)
Definition second_lot_gone : database :=
  mkDb [tea 1 1] [mkUser 1 100 0 [(1, 0%Q); (2, 0%Q)]] [] [].

(** The session of the shopper of scenario C. *)
Definition session_two_lots : user_data :=
  mkUserData [mkItem 1 10 0; mkItem 2 10 0] None None.

(** A shopper with a balance of 20 and no session entry for a payment. *)
Definition topped_up_never : database :=
  mkDb [] [mkUser 1 20 0 []] [] [].

(** The session of a shopper who waits for the refill invoice 77. *)
Definition waiting_for_77 : user_data :=
  mkUserData [] None (Some (mkPending 77 "refill" (Some 5%Q))).

(** The gateway reports an invoice paid, with 5.00 received. *)
Definition paid_5 : invoice := mkInvoice "paid" (Some 5%Q).

(** Five off, on any basket. *)
Definition five_off : discount_code :=
  mkCode "FIVE" "fixed" 5 true None 0 None.

(** A row of a lot that was sold is still in the table, beside a lot the
    shopper holds; the stored basket lists both. *)
Definition sold_row_left : database :=
  mkDb [mkProduct 1 "Riga" "Centre" "tea" "10g" "tea 10g" 10 0 0 None; tea 2 1]
    [mkUser 1 100 0 [(1, 0%Q); (2, 0%Q)]] [] [].

(** ** Vocabulary of the further properties *)

(** A lot without its reserved count, and a shopper without the stored
    basket: what the basket operations and the sweeps leave alone. *)
Definition lot_but_reserved (p : product) : product := set_reserved 0 p.

Definition user_but_basket (u : user_row) : user_row := set_basket [] u.


(** Whether a row of [discount_codes] is the code a settlement used. *)
Definition is_used_code (discount_code_used : option string)
    (c : discount_code) : bool :=
  match discount_code_used with
  | Some code => negb (String.eqb code "") && is_code code c
  | None => false
  end.

(** The shopper of [ready_to_pay], with two codes in the store. *)
Definition ready_to_pay_with_codes : database :=
  mkDb [tea 1 1] [mkUser 1 100 0 [(1, 0%Q)]] [] [save10; five_off].

(** ** Entering a discount code ([user.py]) *)



Section DiscountEntry.

Variable BASKET_TIMEOUT : Z.

(** [str.strip] *)
Variable strip : string -> string.


(** [remove_discount]: the applied code is dropped from the session, then
    the basket is shown. *)
Definition remove_discount (db : database) (ud : user_data) (user_id : Z)
    (now : Q) : database * user_data :=
  handle_view_basket BASKET_TIMEOUT db (with_applied_discount None ud)
    user_id now.

End DiscountEntry.

(** ** The profile ([utils.py]) *)

(** [s * n] on a string *)
Fixpoint str_repeat (s : string) (n : nat) : string :=
  match n with
  | O => EmptyString
  | S m => (s ++ str_repeat s m)%string
  end.

(** The filled segments of [get_progress_bar]: the thresholds reached, at
    most five. *)
Definition filled_segments (purchases : Z) : Z :=
  Z.min
    (Z.of_nat
       (List.length (filter (fun t => t <=? purchases) [0; 2; 5; 8; 10])))
    5.

(** [get_progress_bar(purchases)] for the integer of the
    [total_purchases] column. *)
Definition get_progress_bar (purchases : Z) : string :=
  let filled := filled_segments purchases in
  let empty_segments := 5 - filled in
  ("[" ++ str_repeat "🟩" (Z.to_nat filled)
       ++ str_repeat "⬜️" (Z.to_nat empty_segments) ++ "]")%string.

(** [get_user_status(purchases)] *)
Definition get_user_status (purchases : Z) : string :=
  if 10 <=? purchases then "VIP 👑"
  else if 5 <=? purchases then "Regular ⭐"
  else "New 🌱".

(** * Properties *)

(** ** Comparisons and rounding *)

Lemma Qlt_bool_iff (a b : Q) : Qlt_bool a b = true <-> (a < b)%Q.
Proof.
  unfold Qlt_bool. rewrite negb_true_iff.
  split; intro H.
  - apply Qnot_le_lt. intro Hle. apply Qle_bool_iff in Hle. congruence.
  - destruct (Qle_bool b a) eqn:E; [|reflexivity].
    apply Qle_bool_iff in E. exfalso. apply (Qlt_not_le _ _ H E).
Qed.

Lemma Qlt_bool_false_iff (a b : Q) : Qlt_bool a b = false <-> (b <= a)%Q.
Proof.
  unfold Qlt_bool. rewrite negb_false_iff. apply Qle_bool_iff.
Qed.

Lemma py_min_spec (a b : Q) :
  (py_min a b <= a)%Q /\ (py_min a b <= b)%Q
  /\ (py_min a b == a \/ py_min a b == b)%Q.
Proof.
  unfold py_min. destruct (Qlt_bool b a) eqn:E.
  - apply Qlt_bool_iff in E. repeat split; try lra; right; reflexivity.
  - apply Qlt_bool_false_iff in E. repeat split; try lra; left; reflexivity.
Qed.

Lemma py_max_spec (a b : Q) :
  (a <= py_max a b)%Q /\ (b <= py_max a b)%Q
  /\ (py_max a b == a \/ py_max a b == b)%Q.
Proof.
  unfold py_max. destruct (Qlt_bool a b) eqn:E.
  - apply Qlt_bool_iff in E. repeat split; try lra; right; reflexivity.
  - apply Qlt_bool_false_iff in E. repeat split; try lra; left; reflexivity.
Qed.

(** The rounded value is the floor or the integer after it. *)
Lemma round_half_even_cases (x : Q) :
  (round_half_even x = Qfloor x
   /\ (x - inject_Z (Qfloor x) <= 1 # 2)%Q
   /\ ((x - inject_Z (Qfloor x) == 1 # 2)%Q -> Z.even (Qfloor x) = true))
  \/ (round_half_even x = Qfloor x + 1
      /\ (1 # 2 <= x - inject_Z (Qfloor x))%Q
      /\ ((x - inject_Z (Qfloor x) == 1 # 2)%Q -> Z.even (Qfloor x) = false)).
Proof.
  unfold round_half_even.
  destruct (Qlt_bool (x - inject_Z (Qfloor x)) (1 # 2)) eqn:E1.
  - apply Qlt_bool_iff in E1. left. repeat split; try lra; intro; lra.
  - apply Qlt_bool_false_iff in E1.
    destruct (Qlt_bool (1 # 2) (x - inject_Z (Qfloor x))) eqn:E2.
    + apply Qlt_bool_iff in E2. right. repeat split; try lra; intro; lra.
    + apply Qlt_bool_false_iff in E2.
      destruct (Z.even (Qfloor x)) eqn:E3.
      * left. repeat split; try lra; reflexivity.
      * right. repeat split; try lra; reflexivity.
Qed.

Lemma round_half_even_monotone (x y : Q) :
  (x <= y)%Q -> round_half_even x <= round_half_even y.
Proof.
  intro Hxy.
  pose proof (Qfloor_resp_le _ _ Hxy) as Hf.
  destruct (round_half_even_cases x) as [(Hx & Hx1 & Hx2)|(Hx & Hx1 & Hx2)];
  destruct (round_half_even_cases y) as [(Hy & Hy1 & Hy2)|(Hy & Hy1 & Hy2)];
    rewrite Hx, Hy; try lia.
  destruct (Z.eq_dec (Qfloor x) (Qfloor y)) as [Heq|Hne]; [|lia].
  exfalso. rewrite Heq in *.
  assert (Hx3 : (x - inject_Z (Qfloor y) == 1 # 2)%Q) by lra.
  assert (Hy3 : (y - inject_Z (Qfloor y) == 1 # 2)%Q) by lra.
  rewrite (Hx2 Hx3) in Hy2. specialize (Hy2 Hy3). discriminate.
Qed.




(** ** The discount validator *)

Section Validator.

Variables (db : database) (code_text : string) (total now : Q).




End Validator.




(** ** Statements on tables *)

Lemma update_rows_map {A : Type} (cond : A -> bool) (set : A -> A)
    (rows : list A) :
  update_rows cond set rows = map (fun r => if cond r then set r else r) rows.
Proof. reflexivity. Qed.

Lemma find_update_rows {A : Type} (cond : A -> bool) (set : A -> A)
    (rows : list A) :
  (forall r, cond (set r) = cond r) ->
  find cond (update_rows cond set rows) = option_map set (find cond rows).
Proof.
  intro Hset. induction rows as [|r rows IH]; [reflexivity|].
  simpl. destruct (cond r) eqn:E.
  - now rewrite Hset, E.
  - now rewrite E.
Qed.

Lemma find_update_rows_other {A : Type} (cond other : A -> bool)
    (set : A -> A) (rows : list A) :
  (forall r, cond (set r) = cond r) ->
  (forall r, cond r = true -> other r = false) ->
  find cond (update_rows other set rows) = find cond rows.
Proof.
  intros Hset Hother. induction rows as [|r rows IH]; [reflexivity|].
  simpl. destruct (other r) eqn:E.
  - rewrite Hset. destruct (cond r) eqn:E'.
    + apply Hother in E'. congruence.
    + exact IH.
  - destruct (cond r); [reflexivity|exact IH].
Qed.

Lemma rowcount_pos_of_find {A : Type} (cond : A -> bool) (rows : list A)
    (r : A) :
  find cond rows = Some r -> (rowcount cond rows =? 0) = false.
Proof.
  intro H. apply Z.eqb_neq. unfold rowcount.
  induction rows as [|x rows IH]; [discriminate|].
  cbn [find filter] in *.
  destruct (cond x); [|now apply IH].
  cbn [List.length]. rewrite Nat2Z.inj_succ. lia.
Qed.

Lemma filter_all {A : Type} (f : A -> bool) (l : list A) :
  filter (fun x => negb (f x)) l = [] -> filter f l = l.
Proof.
  induction l as [|x l IH]; [reflexivity|].
  simpl. destruct (f x); simpl; [|discriminate].
  intro H. now rewrite IH.
Qed.

Lemma same_key_same_row {A : Type} (key : A -> Z) (l : list A) (a b : A) :
  NoDup (map key l) -> In a l -> In b l -> key a = key b -> a = b.
Proof.
  induction l as [|x l IH]; [contradiction|].
  simpl. intros Hnd [->|Ha] [->|Hb] Hk; inversion Hnd; subst.
  - reflexivity.
  - exfalso. apply H1. rewrite Hk. now apply in_map.
  - exfalso. apply H1. rewrite <- Hk. now apply in_map.
  - now apply IH.
Qed.

Lemma set_basket_same (u : user_row) : set_basket (u_basket u) u = u.
Proof. now destruct u. Qed.

Lemma select_user_store_basket (db : database) (uid : Z)
    (b : list basket_entry) :
  find (is_user uid) (store_basket b uid (users db))
  = option_map (set_basket b) (select_user db uid).
Proof.
  unfold store_basket, select_user. now apply find_update_rows.
Qed.

(** ** Counters and releases *)

Lemma set_reserved_twice (v w : Z) (p : product) :
  set_reserved v (set_reserved w p) = set_reserved v p.
Proof. reflexivity. Qed.

Lemma release_counts_rows (counts : list (Z * Z)) (ps : list product) :
  release_counts counts ps
  = map (fun p =>
           fold_left
             (fun q kc =>
                if has_id (fst kc) q
                then set_reserved (Z.max 0 (p_reserved q - snd kc)) q
                else q) counts p) ps.
Proof.
  unfold release_counts. revert ps.
  induction counts as [|kc counts IH]; intro ps; simpl.
  - now rewrite map_id.
  - rewrite IH. unfold release, update_rows. now rewrite map_map.
Qed.

Lemma counted_nonneg (k : Z) (counts : list (Z * Z)) :
  Forall (fun kc => 1 <= snd kc) counts -> 0 <= counted k counts.
Proof.
  induction 1 as [|kc counts Hkc _ IH]; simpl; [lia|].
  destruct (fst kc =? k); lia.
Qed.

Lemma release_row_counted (counts : list (Z * Z)) (p : product) :
  Forall (fun kc => 1 <= snd kc) counts ->
  fold_left
    (fun q kc =>
       if has_id (fst kc) q
       then set_reserved (Z.max 0 (p_reserved q - snd kc)) q
       else q) counts p
  = released_by (counted (p_id p) counts) p.
Proof.
  intro Hpos. revert p.
  induction Hpos as [|kc counts Hkc Hrest IH]; intro p; [reflexivity|].
  simpl. unfold has_id at 2.
  rewrite (Z.eqb_sym (p_id p)).
  pose proof (counted_nonneg (p_id p) counts Hrest) as Hnn.
  destruct (fst kc =? p_id p) eqn:E.
  - rewrite IH. simpl. unfold released_by.
    destruct (counted (p_id p) counts =? 0) eqn:E0.
    + apply Z.eqb_eq in E0. rewrite E0.
      replace (snd kc + 0 =? 0) with false by (symmetry; apply Z.eqb_neq; lia).
      now rewrite Z.add_0_r.
    + apply Z.eqb_neq in E0.
      replace (snd kc + counted (p_id p) counts =? 0) with false
        by (symmetry; apply Z.eqb_neq; lia).
      rewrite set_reserved_twice. simpl. f_equal. lia.
  - apply IH.
Qed.

Lemma counted_counter_add (k i : Z) (c : list (Z * Z)) :
  counted i (counter_add k c) = counted i c + (if k =? i then 1 else 0).
Proof.
  induction c as [|[k' n] c IH]; simpl.
  - destruct (k =? i); lia.
  - destruct (k' =? k) eqn:E; simpl.
    + apply Z.eqb_eq in E. subst k'. destruct (k =? i); lia.
    + rewrite IH. destruct (k' =? i); lia.
Qed.

Lemma counter_add_positive (k : Z) (c : list (Z * Z)) :
  Forall (fun kc => 1 <= snd kc) c ->
  Forall (fun kc => 1 <= snd kc) (counter_add k c).
Proof.
  induction 1 as [|[k' n] c Hkc Hrest IH]; simpl.
  - constructor; [simpl; lia|constructor].
  - destruct (k' =? k); constructor; simpl in *; try lia; assumption.
Qed.

Lemma Counter_spec (keys : list Z) (c : list (Z * Z)) :
  Forall (fun kc => 1 <= snd kc) c ->
  Forall (fun kc => 1 <= snd kc) (fold_left (fun c k => counter_add k c) keys c)
  /\ forall i,
       counted i (fold_left (fun c k => counter_add k c) keys c)
       = counted i c + occurrences i keys.
Proof.
  revert c. induction keys as [|k keys IH]; intros c Hc; simpl.
  - split; [assumption|]. intro i. unfold occurrences, rowcount. simpl. lia.
  - destruct (IH (counter_add k c) (counter_add_positive k c Hc)) as [H1 H2].
    split; [assumption|]. intro i. rewrite H2, counted_counter_add.
    unfold occurrences, rowcount. simpl. rewrite (Z.eqb_sym i k).
    destruct (k =? i); cbn [List.length]; lia.
Qed.

(** Releasing by a counter of keys releases, on every row, as many
    reservations as the row's id occurs among the keys. *)
Lemma release_counts_Counter (keys : list Z) (ps : list product) :
  release_counts (Counter keys) ps
  = map (fun p => released_by (occurrences (p_id p) keys) p) ps.
Proof.
  rewrite release_counts_rows. apply map_ext. intro p.
  destruct (Counter_spec keys [] (Forall_nil _)) as [Hpos Hsum].
  unfold Counter. rewrite release_row_counted by assumption.
  now rewrite Hsum.
Qed.

(** ** The expiry sweeps *)

Section Sweeps.

Variable BASKET_TIMEOUT : Z.
Variable now : Q.

Let live := is_live BASKET_TIMEOUT now.
Let expired := is_expired BASKET_TIMEOUT now.

(** What one [(basket, user_id)] update does to a row of [users]. *)
Let apply_update (r : user_row) (upd : list basket_entry * Z) : user_row :=
  if is_user (snd upd) r then set_basket (fst upd) r else r.

Lemma store_baskets_rows (upds : list (list basket_entry * Z))
    (acc : list user_row) :
  fold_left (fun acc upd => store_basket (fst upd) (snd upd) acc) upds acc
  = map (fun r => fold_left apply_update upds r) acc.
Proof.
  revert acc. induction upds as [|upd upds IH]; intro acc; simpl.
  - now rewrite map_id.
  - rewrite IH. unfold store_basket, update_rows. now rewrite map_map.
Qed.

(** The update the global sweep issues for one row. *)
Let update_for (u : user_row) : list (list basket_entry * Z) :=
  match u_basket u with
  | [] => []
  | items =>
      match filter (is_expired BASKET_TIMEOUT now) items with
      | [] => []
      | _ => [(filter (is_live BASKET_TIMEOUT now) items, u_user_id u)]
      end
  end.

Lemma user_basket_updates_cons (u : user_row) (l : list user_row) :
  user_basket_updates BASKET_TIMEOUT now (u :: l)
  = update_for u ++ user_basket_updates BASKET_TIMEOUT now l.
Proof. reflexivity. Qed.

Lemma update_of_other (u r : user_row) :
  u_user_id u <> u_user_id r ->
  fold_left apply_update (update_for u) r = r.
Proof.
  intro Hne.
  assert (Hu : is_user (u_user_id u) r = false).
  { unfold is_user. apply Z.eqb_neq. intro E. apply Hne. now symmetry. }
  unfold update_for.
  destruct (u_basket u) as [|e b]; [reflexivity|].
  destruct (filter _ (e :: b)); [reflexivity|].
  cbn [fold_left]. unfold apply_update. cbn [fst snd]. now rewrite Hu.
Qed.

Lemma update_of_self (r : user_row) :
  fold_left apply_update (update_for r) r
  = set_basket (filter live (u_basket r)) r.
Proof.
  assert (Hself : is_user (u_user_id r) r = true)
    by (unfold is_user; apply Z.eqb_refl).
  unfold update_for. subst live.
  destruct (u_basket r) as [|e b] eqn:Hb.
  - simpl. rewrite <- Hb. symmetry. apply set_basket_same.
  - destruct (filter (is_expired BASKET_TIMEOUT now) (e :: b)) eqn:Hexp.
    + cbn [fold_left]. rewrite (filter_all _ _ Hexp), <- Hb.
      symmetry. apply set_basket_same.
    + cbn [fold_left]. unfold apply_update. cbn [fst snd].
      now rewrite Hself.
Qed.

Lemma updates_of_others (l : list user_row) (r : user_row) :
  (forall u, In u l -> u_user_id u <> u_user_id r) ->
  fold_left apply_update (user_basket_updates BASKET_TIMEOUT now l) r = r.
Proof.
  induction l as [|u l IH]; intro Hne; [reflexivity|].
  rewrite user_basket_updates_cons, fold_left_app.
  rewrite update_of_other by (apply Hne; now left).
  apply IH. intros v Hv. apply Hne. now right.
Qed.

Lemma updates_of_row (l : list user_row) (r : user_row) :
  NoDup (map u_user_id l) -> In r l ->
  fold_left apply_update (user_basket_updates BASKET_TIMEOUT now l) r
  = set_basket (filter live (u_basket r)) r.
Proof.
  induction l as [|u l IH]; intros Hnd Hin; [contradiction|].
  inversion Hnd as [|? ? Hnotin Hnd']; subst.
  rewrite user_basket_updates_cons, fold_left_app.
  destruct Hin as [->|Hin].
  - rewrite update_of_self. apply updates_of_others.
    intros v Hv E. apply Hnotin. simpl in E. rewrite <- E. now apply in_map.
  - rewrite update_of_other; [now apply IH|].
    intro E. apply Hnotin. rewrite E. now apply in_map.
Qed.

(** C10. A hold is kept exactly when [now - timestamp <= BASKET_TIMEOUT];
    at an elapsed time equal to the timeout it is still kept.  The lazy
    sweep leaves in the shopper's stored basket the holds that are kept, the
    global sweep does so for every shopper, and both release, on every lot,
    as many reservations as holds on it have expired. *)
Theorem expiry_is_strict (db : database) :
  NoDup (map u_user_id (users db)) ->
  (forall e, live e = true <-> (now - snd e <= inject_Z BASKET_TIMEOUT)%Q)
  /\ (forall e, (now - snd e == inject_Z BASKET_TIMEOUT)%Q -> live e = true)
  /\ (forall ud user_id,
        let db' := fst (clear_expired_basket BASKET_TIMEOUT db ud user_id now) in
        select_basket db' user_id = filter live (select_basket db user_id)
        /\ products db'
           = map (fun p =>
                    released_by
                      (occurrences (p_id p)
                         (map fst (filter expired (select_basket db user_id))))
                      p) (products db))
  /\ (let db' := clear_all_expired_baskets BASKET_TIMEOUT db now in
      users db'
      = map (fun u => set_basket (filter live (u_basket u)) u) (users db)
      /\ products db'
         = map (fun p =>
                  released_by
                    (occurrences (p_id p)
                       (map fst (all_expired BASKET_TIMEOUT now (users db))))
                    p) (products db)).
Proof.
  intro Hnd.
  assert (Hnone : forall ps : list product,
            ps = map (fun p => released_by (occurrences (p_id p) []) p) ps).
  { intro ps. rewrite <- (map_id ps) at 1. apply map_ext. reflexivity. }
  split; [|split; [|split]].
  - intro e. subst live. unfold is_live. apply Qle_bool_iff.
  - intros e He. subst live. unfold is_live. apply Qle_bool_iff.
    rewrite He. apply Qle_refl.
  - intros ud user_id. unfold clear_expired_basket.
    destruct (select_basket db user_id) as [|e items] eqn:Hb.
    + simpl. rewrite Hb. split; [reflexivity|apply Hnone].
    + subst expired live.
      destruct (filter (is_expired BASKET_TIMEOUT now) (e :: items)) eqn:Hexp.
      * cbn [fst]. rewrite Hb. split; [|apply Hnone].
        symmetry. apply (filter_all _ _ Hexp).
      * cbn [fst]. split.
        -- unfold select_basket, select_user at 1.
           cbn [users with_products with_users].
           rewrite select_user_store_basket.
           unfold select_basket in Hb.
           destruct (select_user db user_id); [reflexivity|discriminate].
        -- cbn [products with_products]. apply release_counts_Counter.
  - unfold clear_all_expired_baskets. cbn [users products with_products
                                             with_users]. split.
    + rewrite store_baskets_rows. apply map_ext_in. intros r Hr.
      now apply updates_of_row.
    + apply release_counts_Counter.
Qed.

End Sweeps.

Lemma expiry_is_strict_witness :
  select_basket
    (fst (clear_expired_basket 900 holding_since_0 session_since_0 1 900)) 1
  = [(1, 0%Q)]
  /\ select_basket
       (fst (clear_expired_basket 900 holding_since_0 session_since_0 1 901)) 1
     = []
  /\ map p_reserved
       (products
          (fst (clear_expired_basket 900 holding_since_0 session_since_0 1
                  901)))
     = [0].
Proof.
  assert (Hnd : NoDup (map u_user_id (users holding_since_0))).
  { simpl. constructor; [simpl; tauto|constructor]. }
  split; [|split].
  - destruct (expiry_is_strict 900 900 holding_since_0 Hnd)
      as (_ & _ & Hlazy & _).
    destruct (Hlazy session_since_0 1) as [H _]. rewrite H. reflexivity.
  - destruct (expiry_is_strict 900 901 holding_since_0 Hnd)
      as (_ & _ & Hlazy & _).
    destruct (Hlazy session_since_0 1) as [H _]. rewrite H. reflexivity.
  - destruct (expiry_is_strict 900 901 holding_since_0 Hnd)
      as (_ & _ & Hlazy & _).
    destruct (Hlazy session_since_0 1) as [_ H]. rewrite H. reflexivity.
Defined.

(** ** Adding to and removing from the basket *)

Lemma first_by_id_from (rows : list product) (a p : product) :
  fold_left
    (fun best p =>
       match best with
       | None => Some p
       | Some q => if p_id p <? p_id q then Some p else Some q
       end) rows (Some a) = Some p ->
  (p = a \/ In p rows) /\ p_id p <= p_id a
  /\ forall q, In q rows -> p_id p <= p_id q.
Proof.
  revert a. induction rows as [|x rows IH]; intros a H; simpl in H.
  - inversion H; subst. repeat split; [now left|lia|contradiction].
  - destruct (p_id x <? p_id a) eqn:E.
    + apply Z.ltb_lt in E. destruct (IH _ H) as (Hin & Hle & Hall).
      repeat split.
      * right. destruct Hin as [->|Hin]; [now left|now right].
      * lia.
      * intros q [<-|Hq]; [exact Hle|now apply Hall].
    + apply Z.ltb_ge in E. destruct (IH _ H) as (Hin & Hle & Hall).
      repeat split.
      * destruct Hin as [->|Hin]; [now left|right; now right].
      * exact Hle.
      * intros q [<-|Hq]; [lia|now apply Hall].
Qed.

Lemma first_by_id_spec (rows : list product) :
  match first_by_id rows with
  | None => rows = []
  | Some p => In p rows /\ forall q, In q rows -> p_id p <= p_id q
  end.
Proof.
  unfold first_by_id. destruct rows as [|x rows]; [reflexivity|].
  simpl.
  destruct (fold_left _ rows (Some x)) as [p|] eqn:E.
  - destruct (first_by_id_from rows x p E) as (Hin & Hle & Hall).
    split.
    + destruct Hin as [->|Hin]; [now left|now right].
    + intros q [<-|Hq]; [exact Hle|now apply Hall].
  - exfalso. clear -E. revert x E.
    induction rows as [|y rows IH]; intros x E; simpl in E; [discriminate|].
    destruct (p_id y <? p_id x); eapply IH; exact E.
Qed.











(** ** Settlement from the balance *)

Section Settlement.

Variables (user_id : Z) (purchase_time : Q).

Let step (details : list product) := process_item user_id details purchase_time.

Lemma update_rows_keeps {A B : Type} (key : A -> B) (cond : A -> bool)
    (set : A -> A) (rows : list A) :
  (forall r, key (set r) = key r) ->
  map key (update_rows cond set rows) = map key rows.
Proof.
  intro Hkey. unfold update_rows. rewrite map_map. apply map_ext.
  intro r. now destruct (cond r).
Qed.

Lemma rowcount_none {A : Type} (cond : A -> bool) (rows : list A) :
  (forall r, In r rows -> cond r = false) -> rowcount cond rows = 0.
Proof.
  intro H. unfold rowcount.
  induction rows as [|r rows IH]; [reflexivity|].
  simpl. rewrite (H r (or_introl eq_refl)).
  apply IH. intros x Hx. apply H. now right.
Qed.

Lemma process_items_unsettleable (details : list product)
    (snapshot : list basket_item) (st : purchase_loop) :
  map (fun p => (p_id p, p_available p)) (loop_products st)
  = map (fun p => (p_id p, p_available p)) details ->
  Forall (unsettleable details) snapshot ->
  purchases_to_insert (fold_left (step details) snapshot st)
  = purchases_to_insert st.
Proof.
  intros Hrows Hall. revert st Hrows.
  induction Hall as [|item snapshot Hitem _ IH]; intros st Hrows;
    [reflexivity|].
  cbn [fold_left].
  assert (Hstep :
    purchases_to_insert (step details st item) = purchases_to_insert st
    /\ map (fun p => (p_id p, p_available p))
         (loop_products (step details st item))
       = map (fun p => (p_id p, p_available p)) details).
  { subst step. unfold process_item.
    destruct (select_product details (bi_product_id item)); [|now split].
    destruct (rowcount _ (loop_products st) =? 0); [now split|].
    assert (Hrel :
      map (fun p => (p_id p, p_available p))
        (release 1 (bi_product_id item) (loop_products st))
      = map (fun p => (p_id p, p_available p)) details).
    { unfold release. now rewrite update_rows_keeps. }
    rewrite rowcount_none.
    - simpl. split; [reflexivity|]. now rewrite update_rows_keeps.
    - intros r Hr.
      destruct (has_id (bi_product_id item) r) eqn:E; [|reflexivity].
      simpl. apply Z.ltb_ge.
      assert (Hin : In (p_id r, p_available r)
                      (map (fun p => (p_id p, p_available p)) details)).
      { rewrite <- Hrel. now apply (in_map (fun p => (p_id p, p_available p))). }
      apply in_map_iff in Hin. destruct Hin as (q & Hq & Hqin).
      injection Hq as Hid Hav.
      rewrite <- Hav. apply (Hitem q Hqin).
      rewrite Hid. unfold has_id in E. now apply Z.eqb_eq. }
  destruct Hstep as [Hp Hr]. rewrite IH by exact Hr. exact Hp.
Qed.

Lemma nothing_inserted_when_unsettleable (ps : list product)
    (snapshot : list basket_item) :
  Forall (unsettleable ps) snapshot ->
  purchases_to_insert (process_items user_id ps purchase_time snapshot) = [].
Proof.
  intro H. unfold process_items.
  exact (process_items_unsettleable ps snapshot (mkLoop ps [] [] [])
           eq_refl H).
Qed.

Variables (db : database) (ud : user_data) (amount_to_deduct : Q)
  (basket_snapshot : list basket_item) (discount_code_used : option string).

Let tx :=
  purchase_transaction db user_id amount_to_deduct basket_snapshot
    discount_code_used purchase_time.

Let result :=
  process_purchase_with_balance db ud user_id amount_to_deduct
    basket_snapshot discount_code_used purchase_time.

(** C1. When no line of the snapshot is finalized, so that no row would be
    inserted into the purchases log, the settlement fails and the whole
    database is the one it started from: the balance, the products and the
    purchases log are unchanged, and so is the session.  When the shopper
    could pay, the transaction is the one rolled back after the debit and
    the message is the one for an order that failed because all items were
    sold out. *)
Theorem nothing_settleable_rolls_back :
  purchases_to_insert
    (process_items user_id (products db) purchase_time basket_snapshot) = [] ->
  pr_success result = false
  /\ pr_db result = db
  /\ pr_user_data result = ud
  /\ (basket_snapshot <> [] -> (0 <= amount_to_deduct)%Q ->
      forall u, select_user db user_id = Some u ->
                (amount_to_deduct <= u_balance u)%Q ->
      tx_end tx = NothingProcessed
      /\ pr_messages result = [OrderFailedAllSoldOut]).
Proof.
  intro Hnone. subst result tx.
  unfold process_purchase_with_balance, purchase_transaction.
  rewrite Hnone.
  destruct basket_snapshot as [|item rest].
  { simpl. do 3 (split; [reflexivity|]). intro H. now contradiction H. }
  destruct (Qlt_bool amount_to_deduct 0) eqn:Hneg.
  { simpl. do 3 (split; [reflexivity|]). intros _ Hpos.
    apply Qlt_bool_iff in Hneg. lra. }
  destruct (select_user db user_id) as [u|] eqn:Hu.
  2:{ simpl. do 3 (split; [reflexivity|]). intros _ _ u Hu'. discriminate. }
  destruct (Qlt_bool (u_balance u) amount_to_deduct) eqn:Hlow.
  { simpl. do 3 (split; [reflexivity|]). intros _ _ u' Hu' Hle.
    inversion Hu'; subst u'. apply Qlt_bool_iff in Hlow. lra. }
  unfold select_user in Hu. rewrite (rowcount_pos_of_find _ _ _ Hu).
  simpl. do 3 (split; [reflexivity|]). intros _ _ u' _ _. now split.
Qed.

End Settlement.

Lemma nothing_settleable_rolls_back_witness :
  let result :=
    process_purchase_with_balance lot_gone session_since_0 1 10
      [mkItem 1 10 0] None 5 in
  pr_success result = false /\ pr_db result = lot_gone
  /\ pr_user_data result = session_since_0
  /\ pr_messages result = [OrderFailedAllSoldOut].
Proof.
  assert (Hnone :
    purchases_to_insert
      (process_items 1 (products lot_gone) 5 [mkItem 1 10 0]) = []).
  { apply nothing_inserted_when_unsettleable.
    constructor; [|constructor]. intros p []. }
  destruct (nothing_settleable_rolls_back 1 5 lot_gone session_since_0 10
              [mkItem 1 10 0] None Hnone) as (H1 & H2 & H3 & H4).
  split; [exact H1|]. split; [exact H2|]. split; [exact H3|].
  apply (H4 ltac:(discriminate) ltac:(discriminate) (mkUser 1 100 0 [(1, 0%Q)])
           eq_refl).
  discriminate.
Defined.

(** ** The committed transaction and the deletion of the sold rows *)

Lemma rowcount_some {A : Type} (cond : A -> bool) (rows : list A) :
  (rowcount cond rows =? 0) = false -> exists r, In r rows /\ cond r = true.
Proof.
  intro H. apply Z.eqb_neq in H. unfold rowcount in H.
  destruct (filter cond rows) as [|r l] eqn:E; [now contradiction H|].
  exists r. apply filter_In. rewrite E. now left.
Qed.

Lemma occurrences_app (i k : Z) (l : list Z) :
  occurrences i (l ++ [k]) = occurrences i l + (if i =? k then 1 else 0).
Proof.
  unfold occurrences, rowcount.
  rewrite filter_app, length_app, Nat2Z.inj_add.
  cbn [filter]. destruct (i =? k); cbn [List.length]; lia.
Qed.

Lemma Forall2_map_left_in {A B : Type} (R R' : A -> B -> Prop) (g : A -> A)
    (l : list A) (m : list B) :
  (forall a b, In a l -> R a b -> R' (g a) b) ->
  Forall2 R l m -> Forall2 R' (map g l) m.
Proof.
  intros Hg H. induction H as [|a b l m Hab _ IH]; simpl; constructor.
  - apply Hg; [now left|assumption].
  - apply IH. intros x y Hx. apply Hg. now right.
Qed.

Lemma sold_from_ids (processed : list Z) (qs ps : list product) :
  Forall2 (sold_from processed) qs ps -> map p_id qs = map p_id ps.
Proof.
  induction 1 as [|q p qs ps [Hid _] _ IH]; simpl; [reflexivity|].
  now rewrite Hid, IH.
Qed.

Section Loop.

Variables (user_id : Z) (purchase_time : Q) (details : list product).

Hypothesis ids_unique : NoDup (map p_id details).

Lemma process_item_sold_from (st : purchase_loop) (item : basket_item) :
  Forall2 (sold_from (processed_product_ids st)) (loop_products st) details ->
  Forall2
    (sold_from
       (processed_product_ids (process_item user_id details purchase_time
                                 st item)))
    (loop_products (process_item user_id details purchase_time st item))
    details.
Proof.
  intro Hinv. unfold process_item.
  set (pid := bi_product_id item).
  destruct (select_product details pid) as [d|]; [|exact Hinv].
  destruct (rowcount (has_id pid) (loop_products st) =? 0); [exact Hinv|].
  destruct (rowcount _ (release 1 pid (loop_products st)) =? 0) eqn:Hsell.
  - cbn [loop_products processed_product_ids].
    unfold release, update_rows. rewrite map_map.
    apply (Forall2_map_left_in (sold_from (processed_product_ids st)));
      [|exact Hinv].
    intros q p _ [Hid Hav]. unfold sold_from.
    destruct (has_id pid q) eqn:E.
    + change (has_id pid (set_reserved (Z.max 0 (p_reserved q - 1)) q))
        with (has_id pid q).
      rewrite E. now split.
    + rewrite E. now split.
  - cbn [loop_products processed_product_ids].
    apply rowcount_some in Hsell. destruct Hsell as (q1 & Hq1 & Hcan).
    unfold release, update_rows in Hq1. apply in_map_iff in Hq1.
    destruct Hq1 as (q0 & Hq0 & Hq0in).
    assert (Hq0id : p_id q0 = pid /\ 0 < p_available q0).
    { subst q1. apply andb_prop in Hcan. destruct Hcan as [Hc1 Hc2].
      destruct (has_id pid q0) eqn:E; simpl in *.
      - unfold has_id in Hc1. simpl in Hc1.
        split; [now apply Z.eqb_eq|now apply Z.ltb_lt].
      - congruence. }
    destruct Hq0id as [Hq0id Hq0av].
    assert (Hnd : NoDup (map p_id (loop_products st)))
      by (rewrite (sold_from_ids _ _ _ Hinv); exact ids_unique).
    unfold release, update_rows. rewrite map_map.
    apply (Forall2_map_left_in (sold_from (processed_product_ids st)));
      [|exact Hinv].
    intros q p Hq [Hid Hav]. unfold sold_from.
    rewrite occurrences_app.
    destruct (has_id pid q) eqn:E.
    + assert (q = q0).
      { apply (same_key_same_row p_id (loop_products st)); try assumption.
        unfold has_id in E. apply Z.eqb_eq in E. congruence. }
      subst q0. unfold has_id in E. apply Z.eqb_eq in E.
      assert (Hsell : (has_id pid
                         (set_reserved (Z.max 0 (p_reserved q - 1)) q)
                       && (0 <? p_available
                                  (set_reserved (Z.max 0 (p_reserved q - 1))
                                     q))) = true).
      { unfold has_id. simpl. rewrite E, Z.eqb_refl. simpl.
        now apply Z.ltb_lt. }
      rewrite Hsell. simpl. split; [exact Hid|].
      assert (Hp : p_id p = pid) by congruence.
      rewrite Hav, Hp, Z.eqb_refl. lia.
    + rewrite E. simpl. split; [exact Hid|].
      assert (Hp : (p_id p =? pid) = false)
        by (rewrite <- Hid; exact E).
      rewrite Hav, Hp. lia.
Qed.

Lemma process_items_sold_from (snapshot : list basket_item)
    (st : purchase_loop) :
  Forall2 (sold_from (processed_product_ids st)) (loop_products st) details ->
  let st' := fold_left (process_item user_id details purchase_time)
               snapshot st in
  Forall2 (sold_from (processed_product_ids st')) (loop_products st') details.
Proof.
  revert st. induction snapshot as [|item snapshot IH]; intros st Hinv;
    [exact Hinv|].
  simpl. apply IH. now apply process_item_sold_from.
Qed.

End Loop.

Lemma process_item_accounts (user_id : Z) (purchase_time : Q)
    (details : list product) (st : purchase_loop) (item : basket_item) :
  let st' := process_item user_id details purchase_time st item in
  (List.length (processed_product_ids st')
   + List.length (sold_out_during_process st')
   = List.length (processed_product_ids st)
     + List.length (sold_out_during_process st) + 1)%nat
  /\ (List.length (purchases_to_insert st)
      = List.length (processed_product_ids st) ->
      List.length (purchases_to_insert st')
      = List.length (processed_product_ids st'))
  /\ (forall pid, In pid (processed_product_ids st') ->
                  In pid (processed_product_ids st)
                  \/ In pid (map p_id details)).
Proof.
  unfold process_item.
  destruct (select_product details (bi_product_id item)) as [d|] eqn:Hd.
  2:{ cbn. rewrite length_app. cbn. split; [lia|]. split; [auto|]. auto. }
  destruct (rowcount _ (loop_products st) =? 0).
  { cbn. rewrite length_app. cbn. split; [lia|]. split; [auto|]. auto. }
  destruct (rowcount _ (release 1 _ (loop_products st)) =? 0).
  { cbn. rewrite length_app. cbn. split; [lia|]. split; [auto|]. auto. }
  cbn. rewrite !length_app. cbn. split; [lia|]. split; [lia|].
  intros pid Hpid. apply in_app_or in Hpid.
  destruct Hpid as [Hpid|[<-|[]]]; [now left|right].
  unfold select_product in Hd. apply find_some in Hd.
  destruct Hd as [Hin Hid]. unfold has_id in Hid.
  apply Z.eqb_eq in Hid. rewrite <- Hid. now apply in_map.
Qed.

Lemma process_items_accounts (user_id : Z) (purchase_time : Q)
    (details : list product) (snapshot : list basket_item)
    (st : purchase_loop) :
  let st' := fold_left (process_item user_id details purchase_time)
               snapshot st in
  (List.length (processed_product_ids st')
   + List.length (sold_out_during_process st')
   = List.length (processed_product_ids st)
     + List.length (sold_out_during_process st) + List.length snapshot)%nat
  /\ (List.length (purchases_to_insert st)
      = List.length (processed_product_ids st) ->
      List.length (purchases_to_insert st')
      = List.length (processed_product_ids st'))
  /\ (forall pid, In pid (processed_product_ids st') ->
                  In pid (processed_product_ids st)
                  \/ In pid (map p_id details)).
Proof.
  revert st. induction snapshot as [|item snapshot IH]; intro st.
  - cbn. split; [lia|]. split; auto.
  - cbn [fold_left]. cbv zeta in *.
    destruct (IH (process_item user_id details purchase_time st item))
      as (H1 & H2 & H3).
    destruct (process_item_accounts user_id purchase_time details st item)
      as (G1 & G2 & G3).
    cbn [List.length]. split; [lia|]. split; [auto|].
    intros pid Hpid. destruct (H3 pid Hpid) as [H|H]; [|now right].
    now apply G3.
Qed.

Lemma users_delete_purchased (db : database) (processed : list Z) :
  users (delete_purchased db processed) = users db
  /\ purchases (delete_purchased db processed) = purchases db
  /\ discount_codes (delete_purchased db processed) = discount_codes db.
Proof.
  unfold delete_purchased. revert db.
  induction processed as [|pid processed IH]; intro db; [now repeat split|].
  simpl. destruct (IH (delete_product db pid)) as (H1 & H2 & H3).
  now rewrite H1, H2, H3.
Qed.

Lemma products_delete_purchased (db : database) (processed : list Z)
    (p : product) :
  In p (products (delete_purchased db processed))
  <-> In p (products db) /\ ~ In (p_id p) processed.
Proof.
  unfold delete_purchased. revert db.
  induction processed as [|pid processed IH]; intro db; simpl.
  - tauto.
  - rewrite IH. unfold delete_product, delete_rows.
    cbn [products with_products]. rewrite filter_In.
    unfold has_id. rewrite negb_true_iff, Z.eqb_neq. intuition congruence.
Qed.

Section Committed.

Variables (db : database) (ud : user_data) (user_id : Z)
  (amount_to_deduct : Q) (basket_snapshot : list basket_item)
  (discount_code_used : option string) (purchase_time : Q).

Let tx :=
  purchase_transaction db user_id amount_to_deduct basket_snapshot
    discount_code_used purchase_time.

Let result :=
  process_purchase_with_balance db ud user_id amount_to_deduct
    basket_snapshot discount_code_used purchase_time.

Let st := process_items user_id (products db) purchase_time basket_snapshot.

(** What a committed transaction wrote. *)
Lemma committed_transaction :
  tx_end tx = Committed ->
  exists u,
    select_user db user_id = Some u
    /\ purchases_to_insert st <> []
    /\ products (tx_db tx) = loop_products st
    /\ select_user (tx_db tx) user_id
       = Some (mkUser (u_user_id u) (u_balance u - amount_to_deduct)
                 (u_total_purchases u
                  + Z.of_nat (List.length (purchases_to_insert st))) [])
    /\ purchases (tx_db tx) = purchases db ++ purchases_to_insert st
    /\ discount_codes (tx_db tx)
       = count_use discount_code_used (discount_codes db)
    /\ tx_sold_out tx = sold_out_during_process st
    /\ tx_processed tx = processed_product_ids st
    /\ tx_details tx = products db.
Proof.
  subst tx st. unfold purchase_transaction.
  destruct basket_snapshot as [|item rest]; [discriminate|].
  destruct (Qlt_bool amount_to_deduct 0); [discriminate|].
  destruct (select_user db user_id) as [u|] eqn:Hu; [|discriminate].
  destruct (Qlt_bool (u_balance u) amount_to_deduct); [discriminate|].
  destruct (rowcount _ (users db) =? 0); [discriminate|].
  destruct (purchases_to_insert
              (process_items user_id (products db) purchase_time
                 (item :: rest))) as [|x l] eqn:Hins; [discriminate|].
  intros _. exists u. cbn.
  split; [reflexivity|]. split; [discriminate|]. split; [reflexivity|].
  split; [|repeat split].
  unfold select_user, store_basket.
  rewrite !find_update_rows by reflexivity.
  unfold select_user in Hu. rewrite Hu. reflexivity.
Qed.


(** C8, as the code has it.  The sale of a lot is committed in the
    settlement transaction: in the database the transaction leaves, every
    row of before is still there, with as many units less as the lot was
    sold, so the row of a lot that was sold exists with its units taken
    off.  The rows of the lots sold are deleted afterwards, each on a
    connection of its own: when the settlement has returned they are gone
    and the other rows are as the transaction left them. *)
Theorem sale_is_committed_before_the_row_is_deleted :
  NoDup (map p_id (products db)) ->
  tx_end tx = Committed ->
  Forall2 (sold_from (tx_processed tx)) (products (tx_db tx)) (products db)
  /\ (forall pid, In pid (tx_processed tx) ->
                  In pid (map p_id (products (tx_db tx))))
  /\ (forall p, In p (products (pr_db result))
                <-> In p (products (tx_db tx))
                    /\ ~ In (p_id p) (tx_processed tx)).
Proof.
  intros Hnd Hend.
  destruct (committed_transaction Hend)
    as (u & _ & _ & Hps & _ & _ & _ & _ & Hpr & _).
  assert (Hsold : Forall2 (sold_from (tx_processed tx)) (products (tx_db tx))
                    (products db)).
  { rewrite Hps, Hpr. subst st. unfold process_items.
    apply (process_items_sold_from user_id purchase_time (products db) Hnd).
    cbn. clear. induction (products db) as [|p ps IH]; constructor;
      [|exact IH].
    unfold sold_from, occurrences, rowcount. simpl. split; [reflexivity|lia]. }
  split; [exact Hsold|]. split.
  - intros pid Hpid. rewrite (sold_from_ids _ _ _ Hsold).
    rewrite Hpr in Hpid. subst st. unfold process_items in Hpid.
    destruct (process_items_accounts user_id purchase_time (products db)
                basket_snapshot (mkLoop (products db) [] [] []))
      as (_ & _ & Hin).
    destruct (Hin pid Hpid) as [[]|H]. exact H.
  - intro p. subst result. unfold process_purchase_with_balance. fold tx.
    rewrite Hend. cbn [pr_db]. apply products_delete_purchased.
Qed.

End Committed.


Lemma sale_is_committed_before_the_row_is_deleted_witness :
  let tx := purchase_transaction ready_to_pay 1 10 [mkItem 1 10 0] None 5 in
  let result :=
    process_purchase_with_balance ready_to_pay session_since_0 1 10
      [mkItem 1 10 0] None 5 in
  In 1 (map p_id (products (tx_db tx)))
  /\ ~ In 1 (map p_id (products (pr_db result))).
Proof.
  intros tx result.
  assert (Hnd : NoDup (map p_id (products ready_to_pay))).
  { simpl. constructor; [simpl; tauto|constructor]. }
  assert (Hend : tx_end tx = Committed) by reflexivity.
  destruct (sale_is_committed_before_the_row_is_deleted ready_to_pay
              session_since_0 1 10 [mkItem 1 10 0] None 5 Hnd Hend)
    as (_ & Hrow & Hgone).
  split.
  - apply Hrow. now left.
  - intro Hin. apply in_map_iff in Hin. destruct Hin as (p & Hid & Hp).
    apply Hgone in Hp. destruct Hp as [_ Hnot]. apply Hnot.
    rewrite Hid. now left.
Defined.

(** C8 as stated fails.  The settlement of one held lot commits a database
    in which the lot's available count is down from 1 to 0 and its row is
    still in the products table; the row is gone only when the settlement
    has returned. *)
Lemma sold_row_outlives_the_transaction :
  let tx := purchase_transaction ready_to_pay 1 10 [mkItem 1 10 0] None 5 in
  let result :=
    process_purchase_with_balance ready_to_pay session_since_0 1 10
      [mkItem 1 10 0] None 5 in
  tx_end tx = Committed
  /\ map (fun p => (p_id p, p_available p)) (products ready_to_pay) = [(1, 1)]
  /\ map (fun p => (p_id p, p_available p)) (products (tx_db tx)) = [(1, 0)]
  /\ products (pr_db result) = [].
Proof. repeat split; reflexivity. Qed.

(** ** The invariant of a lot *)

Lemma released_by_ok (n : Z) (p : product) :
  0 <= n -> lot_ok p -> lot_ok (released_by n p).
Proof.
  intros Hn [H0 H1]. unfold released_by, lot_ok.
  destruct (n =? 0); simpl; lia.
Qed.

Lemma occurrences_nonneg (k : Z) (keys : list Z) : 0 <= occurrences k keys.
Proof. unfold occurrences, rowcount. lia. Qed.

Lemma release_counts_Counter_ok (keys : list Z) (ps : list product) :
  Forall lot_ok ps -> Forall lot_ok (release_counts (Counter keys) ps).
Proof.
  intro H. rewrite release_counts_Counter. apply Forall_map.
  apply Forall_forall. intros p Hp. rewrite Forall_forall in H.
  apply released_by_ok; [apply occurrences_nonneg|now apply H].
Qed.

Lemma release_ok (pid : Z) (ps : list product) :
  Forall lot_ok ps -> Forall lot_ok (release 1 pid ps).
Proof.
  intro H. unfold release, update_rows. apply Forall_map.
  apply Forall_forall. intros p Hp. rewrite Forall_forall in H.
  destruct (H p Hp) as [H0 H1].
  destruct (has_id pid p); unfold lot_ok; simpl; lia.
Qed.

(** Adding, removing, clearing and both sweeps keep [0 <= reserved <=
    available] on every lot; the settlement is the operation that does
    not. *)
Lemma basket_operations_keep_lots_ok (BASKET_TIMEOUT : Z) (w : world)
    (op : operation) :
  (forall u t, op <> Checkout u t) ->
  NoDup (map p_id (products (w_db w))) ->
  lots_ok (w_db w) -> lots_ok (w_db (run BASKET_TIMEOUT w op)).
Proof.
  intros Hop Hnd Hok. unfold lots_ok in *.
  destruct op as [u city district p_type size price now|u pid now|u|u now
                 |now|u now]; cbn [run].
  - unfold handle_add_to_basket.
    pose proof (first_by_id_spec
                  (filter (matches_free city district p_type size price)
                     (products (w_db w)))) as Hfirst.
    destruct (first_by_id _) as [p|]; [|exact Hok].
    cbn [w_db products with_products].
    destruct Hfirst as [Hin _]. apply filter_In in Hin.
    destruct Hin as [Hin Hfree].
    unfold update_rows. apply Forall_map. apply Forall_forall.
    intros q Hq. rewrite Forall_forall in Hok.
    destruct (has_id (p_id p) q) eqn:E; [|now apply Hok].
    assert (q = p).
    { apply (same_key_same_row p_id (products (w_db w))); try assumption.
      unfold has_id in E. now apply Z.eqb_eq. }
    subst q. destruct (Hok p Hin) as [H0 _].
    unfold matches_free in Hfree. apply andb_prop in Hfree.
    destruct Hfree as [_ Hfree]. apply Z.ltb_lt in Hfree.
    unfold lot_ok. simpl. lia.
  - unfold handle_remove_from_basket.
    destruct (find _ (basket (session w u))); [|exact Hok].
    cbn [w_db products with_products]. now apply release_ok.
  - unfold handle_clear_basket.
    destruct (basket (session w u)) as [|item items]; [exact Hok|].
    cbn [w_db products with_products]. now apply release_counts_Counter_ok.
  - unfold clear_expired_basket.
    destruct (select_basket (w_db w) u) as [|e items]; [exact Hok|].
    destruct (filter _ (e :: items)); [exact Hok|].
    cbn [w_db products with_products]. now apply release_counts_Counter_ok.
  - unfold clear_all_expired_baskets.
    cbn [w_db products with_products]. now apply release_counts_Counter_ok.
  - exfalso. now apply (Hop u now).
Qed.

(** C4 fails on the code.  From a store with one free lot and two shoppers:
    the second shopper adds the lot at time 0; the global sweep releases it
    at 901, while the second shopper's session still lists it; the first
    shopper adds it at 902; the second shopper removes it from the stale
    session at 903, which releases the first shopper's reservation; the
    first shopper adds it again at 904.  Each of these states satisfies the
    invariant.  The checkout of the first shopper at 905 settles a snapshot
    with the lot on two lines: the first line sells it, the second finds no
    unit left and puts back a reservation that the clamped release had not
    taken, and the transaction commits the lot with [available = 0] and
    [reserved = 1]. *)
Theorem settlement_commits_reserved_above_available :
  let ops :=
    [AddToBasket 2 "Riga" "Centre" "tea" "10g" 10 0;
     GlobalSweep 901;
     AddToBasket 1 "Riga" "Centre" "tea" "10g" 10 902;
     RemoveFromBasket 2 1 903;
     AddToBasket 1 "Riga" "Centre" "tea" "10g" 10 904] in
  let w := run_all 900 one_free_lot ops in
  (forall n, lots_ok (w_db (run_all 900 one_free_lot (firstn n ops))))
  /\ exists db1 ud1 snapshot,
       prepare_checkout 900 (w_db w) (session w 1) 1 905
       = Pay db1 ud1 20 snapshot None
       /\ map bi_product_id snapshot = [1; 1]
       /\ tx_end (purchase_transaction db1 1 20 snapshot None 905) = Committed
       /\ map (fun p => (p_id p, p_available p, p_reserved p))
            (products (tx_db (purchase_transaction db1 1 20 snapshot None 905)))
          = [(1, 0, 1)]
       /\ ~ lots_ok (tx_db (purchase_transaction db1 1 20 snapshot None 905)).
Proof.
  intros ops w.
  split.
  { intro n.
    do 5 (destruct n as [|n]; [repeat constructor; simpl; lia|]).
    subst ops. rewrite firstn_all2 by (simpl; lia).
    repeat constructor; simpl; lia. }
  eexists _, _, _. split; [reflexivity|].
  split; [reflexivity|]. split; [reflexivity|]. split; [reflexivity|].
  intro H. inversion H as [|p ps [_ Hle] _ Hps]. simpl in Hle. lia.
Qed.

(** ** Top-up settlement *)

Lemma find_none_of_rowcount {A : Type} (cond : A -> bool) (rows : list A) :
  (rowcount cond rows =? 0) = true -> find cond rows = None.
Proof.
  intro H. destruct (find cond rows) as [r|] eqn:E; [|reflexivity].
  rewrite (rowcount_pos_of_find _ _ _ E) in H. discriminate.
Qed.

(** The refill credits exactly when the amount is positive and the shopper
    has a row; otherwise the database is the one it was given. *)
Lemma process_successful_refill_spec (db : database) (user_id : Z)
    (amount_to_add : Q) (invoice_id : Z) :
  process_successful_refill db user_id amount_to_add invoice_id
  = if Qle_bool amount_to_add 0 then (db, false)
    else match select_user db user_id with
         | Some _ =>
             (with_users
                (update_rows (is_user user_id)
                   (fun u => set_balance (u_balance u + amount_to_add)%Q u)
                   (users db)) db, true)
         | None => (db, false)
         end.
Proof.
  unfold process_successful_refill.
  destruct (Qle_bool amount_to_add 0); [reflexivity|].
  destruct (rowcount (is_user user_id) (users db) =? 0) eqn:Hrows.
  - unfold select_user. now rewrite (find_none_of_rowcount _ _ Hrows).
  - unfold select_user at 1. cbn [users with_users].
    rewrite find_update_rows by reflexivity.
    unfold select_user. now destruct (find (is_user user_id) (users db)).
Qed.

Section Check.

Variables (user_id invoice_id : Z).

Let check := fun db ud => handle_check_cryptobot_payment db ud user_id invoice_id.

(** Without a pending payment in the session a check changes nothing. *)
Lemma check_without_pending (db : database) (ud : user_data)
    (invoices : option invoice) :
  pending_payment ud = None -> check db ud invoices = (db, ud).
Proof.
  intro Hpp. subst check. unfold handle_check_cryptobot_payment.
  rewrite Hpp. destruct invoices as [inv|]; [|reflexivity].
  destruct (String.eqb (inv_status inv) "paid"); [reflexivity|].
  destruct (String.eqb (inv_status inv) "expired"); [reflexivity|].
  destruct (String.eqb (inv_status inv) "active"); reflexivity.
Qed.

(** A check changes the database only through a refill that succeeds. *)
Lemma check_without_refill (db : database) (ud : user_data)
    (invoices : option invoice) :
  (forall amount, (0 < amount)%Q ->
     process_successful_refill db user_id amount invoice_id = (db, false)) ->
  fst (check db ud invoices) = db.
Proof.
  intro Hfail. subst check. unfold handle_check_cryptobot_payment.
  destruct invoices as [inv|]; [|reflexivity].
  destruct (String.eqb (inv_status inv) "paid").
  - destruct (pending_payment ud) as [pp|]; [|reflexivity].
    destruct (negb (pp_invoice_id pp =? invoice_id)); [reflexivity|].
    destruct (String.eqb (pp_type pp) "refill").
    + destruct (match inv_paid_fiat_amount inv with
                | Some paid => Some paid
                | None => pp_fiat_total pp
                end) as [amount|]; [|reflexivity].
      destruct (Qle_bool amount 0) eqn:Hamount; [reflexivity|].
      rewrite Hfail; [reflexivity|].
      apply Qlt_bool_iff. unfold Qlt_bool. now rewrite Hamount.
    + destruct (String.eqb (pp_type pp) "purchase"); reflexivity.
  - destruct (String.eqb (inv_status inv) "expired");
      [now destruct (pending_payment ud) as [pp|];
         [destruct (pp_invoice_id pp =? invoice_id)|]|].
    destruct (String.eqb (inv_status inv) "active"); [reflexivity|].
    now destruct (pending_payment ud) as [pp|];
      [destruct (pp_invoice_id pp =? invoice_id)|].
Qed.

(** A check that sees the invoice paid either removes the pending payment
    from the session, or changes nothing and leaves a state in which no
    later check credits. *)
Lemma paid_check_cases (db : database) (ud : user_data) (first : invoice) :
  inv_status first = "paid"%string ->
  snd (check db ud (Some first)) = with_pending_payment None ud
  \/ (check db ud (Some first) = (db, ud)
      /\ forall invoices, fst (check db ud invoices) = db).
Proof.
  intro Hpaid.
  destruct (pending_payment ud) as [pp|] eqn:Hpp.
  2:{ right. split; [now apply check_without_pending|].
      intro invoices. now rewrite check_without_pending. }
  assert (Hsame : forall invoices,
            (negb (pp_invoice_id pp =? invoice_id) = true
             \/ String.eqb (pp_type pp) "refill" = false) ->
            fst (check db ud invoices) = db).
  { intros invoices Hwhy. subst check.
    unfold handle_check_cryptobot_payment. rewrite Hpp.
    destruct invoices as [inv|]; [|reflexivity].
    destruct (String.eqb (inv_status inv) "paid").
    - destruct (negb (pp_invoice_id pp =? invoice_id)); [reflexivity|].
      destruct Hwhy as [Hwhy|Hwhy]; [discriminate|]. rewrite Hwhy.
      destruct (String.eqb (pp_type pp) "purchase"); reflexivity.
    - destruct (String.eqb (inv_status inv) "expired");
        [now destruct (pp_invoice_id pp =? invoice_id)|].
      destruct (String.eqb (inv_status inv) "active"); [reflexivity|].
      now destruct (pp_invoice_id pp =? invoice_id). }
  assert (Hfirst :
    check db ud (Some first)
    = if negb (pp_invoice_id pp =? invoice_id) then (db, ud)
      else if String.eqb (pp_type pp) "refill" then
        match match inv_paid_fiat_amount first with
              | Some paid => Some paid
              | None => pp_fiat_total pp
              end with
        | None => (db, with_pending_payment None ud)
        | Some amount =>
            if Qle_bool amount 0 then (db, with_pending_payment None ud)
            else
              let '(db', refill_success) :=
                process_successful_refill db user_id amount invoice_id in
              if refill_success then (db', with_pending_payment None ud)
              else (db', ud)
        end
      else if String.eqb (pp_type pp) "purchase" then (db, ud)
      else (db, with_pending_payment None ud)).
  { subst check. unfold handle_check_cryptobot_payment.
    rewrite Hpaid, Hpp. reflexivity. }
  rewrite Hfirst.
  destruct (negb (pp_invoice_id pp =? invoice_id)) eqn:Hcur.
  { right. split; [reflexivity|]. intro invoices. apply Hsame. now left. }
  destruct (String.eqb (pp_type pp) "refill") eqn:Hrefill.
  2:{ destruct (String.eqb (pp_type pp) "purchase"); [|now left].
      right. split; [reflexivity|]. intro invoices. apply Hsame. now right. }
  destruct (match inv_paid_fiat_amount first with
            | Some paid => Some paid
            | None => pp_fiat_total pp
            end) as [amount|]; [|now left].
  destruct (Qle_bool amount 0) eqn:Hamount; [now left|].
  rewrite process_successful_refill_spec, Hamount.
  destruct (select_user db user_id) eqn:Hu; [now left|].
  right. split; [reflexivity|]. intro invoices.
  apply check_without_refill. intros a Ha.
  rewrite process_successful_refill_spec, Hu.
  now destruct (Qle_bool a 0).
Qed.

(** C3, as the code has it.  The guard against a second credit is the
    session entry [pending_payment], not a record kept with the invoice id.
    Once a check has seen the invoice paid, the next check in the same
    session leaves the database as the first one left it, whatever the
    gateway answers; a session without the entry credits nothing; and a
    check that changed the database has removed the entry. *)
Theorem second_paid_check_changes_nothing (db : database) (ud : user_data)
    (first : invoice) (second : option invoice) :
  inv_status first = "paid"%string ->
  let checked :=
    handle_check_cryptobot_payment db ud user_id invoice_id (Some first) in
  let rechecked :=
    handle_check_cryptobot_payment (fst checked) (snd checked) user_id
      invoice_id second in
  fst rechecked = fst checked
  /\ (pending_payment ud = None -> fst checked = db)
  /\ (fst checked <> db -> pending_payment (snd checked) = None).
Proof.
  intros Hpaid checked rechecked. subst rechecked checked.
  fold (check db ud (Some first)).
  fold (check (fst (check db ud (Some first)))
          (snd (check db ud (Some first))) second).
  split; [|split].
  - destruct (paid_check_cases db ud first Hpaid) as [Hpop|[Hsame Hnext]].
    + rewrite check_without_pending; [reflexivity|]. now rewrite Hpop.
    + rewrite Hsame. cbn [fst snd]. apply Hnext.
  - intro Hpp. now rewrite check_without_pending.
  - intro Hchanged.
    destruct (paid_check_cases db ud first Hpaid) as [Hpop|[Hsame _]].
    + now rewrite Hpop.
    + rewrite Hsame in Hchanged. now contradiction Hchanged.
Qed.

End Check.

Lemma second_paid_check_changes_nothing_witness :
  let checked :=
    handle_check_cryptobot_payment topped_up_never waiting_for_77 1 77
      (Some paid_5) in
  let rechecked :=
    handle_check_cryptobot_payment (fst checked) (snd checked) 1 77
      (Some paid_5) in
  option_map u_balance (select_user (fst checked) 1) = Some (20 + 5)%Q
  /\ pending_payment (snd checked) = None
  /\ fst rechecked = fst checked.
Proof.
  intros checked rechecked.
  split; [reflexivity|]. split; [reflexivity|].
  apply (second_paid_check_changes_nothing 1 77 topped_up_never
           waiting_for_77 paid_5 (Some paid_5) eq_refl).
Defined.

(** C3 as stated fails.  The refill run twice for the same invoice credits
    twice; and in a session without the pending payment the paid invoice,
    observed twice, is credited not once but never. *)
Lemma paid_invoice_is_not_credited_exactly_once :
  let once := fst (process_successful_refill topped_up_never 1 5 77) in
  let twice := fst (process_successful_refill once 1 5 77) in
  let checked :=
    handle_check_cryptobot_payment topped_up_never empty_user_data 1 77
      (Some paid_5) in
  let rechecked :=
    handle_check_cryptobot_payment (fst checked) (snd checked) 1 77
      (Some paid_5) in
  option_map u_balance (select_user once 1) = Some (20 + 5)%Q
  /\ option_map u_balance (select_user twice 1) = Some (20 + 5 + 5)%Q
  /\ fst checked = topped_up_never
  /\ fst rechecked = topped_up_never.
Proof. repeat split; reflexivity. Qed.

(** ** The checkout and the invariant of a lot *)

(** The total the checkout hands to the settlement is computed from all
    lines of the snapshot: their sum, or what the validator makes of their
    sum when a code is applied. *)
Lemma checkout_total_covers_the_snapshot (BASKET_TIMEOUT : Z)
    (db : database) (ud : user_data) (user_id : Z) (now : Q)
    (db1 : database) (ud1 : user_data) (final_total : Q)
    (snapshot : list basket_item) (code : option string) :
  prepare_checkout BASKET_TIMEOUT db ud user_id now
  = Pay db1 ud1 final_total snapshot code ->
  match code with
  | None => final_total = basket_total snapshot
  | Some c =>
      exists d,
        validate_discount_code db1 c (basket_total snapshot) now
        = CodeApplied d
        /\ final_total = dd_final_total d
  end.
Proof.
  unfold prepare_checkout.
  destruct (clear_expired_basket BASKET_TIMEOUT db ud user_id now)
    as [db0 ud0].
  destruct (basket ud0) as [|item items].
  { destruct (handle_view_basket _ _ _ _ _); discriminate. }
  destruct (flat_map (snapshot_line (products db0)) (item :: items))
    as [|line lines]; [discriminate|].
  unfold checkout_total.
  destruct (applied_discount ud0) as [info|].
  - destruct (validate_discount_code db0 (ad_code info)
                (basket_total (line :: lines)) now) as [| | | | | | |d] eqn:Hv.
    all: destruct (Qlt_bool _ 0); [discriminate|].
    all: destruct (Qle_bool _ _); [|discriminate].
    all: intro H; injection H as <- _ <- <- <-; try reflexivity.
    exists d. now split.
  - destruct (Qlt_bool _ 0); [discriminate|].
    destruct (Qle_bool _ _); [|discriminate].
    intro H. injection H as _ _ <- <- <-. reflexivity.
Qed.

(** The invariant is not kept by a whole checkout either, when the row of a
    lot that was sold is still in the table: the checkout of a basket that
    lists it leaves the row with a reservation and no unit. *)
Lemma checkout_reserves_a_sold_row :
  let '(db', _, _) :=
    handle_confirm_pay 900 sold_row_left
      (mkUserData [mkItem 1 10 0; mkItem 2 10 0] None None) 1 5 in
  lots_ok sold_row_left
  /\ map (fun p => (p_id p, p_available p, p_reserved p)) (products db')
     = [(1, 0, 1)].
Proof.
  split; [|reflexivity].
  repeat constructor; simpl; lia.
Qed.

(** * Further properties of the engine *)

(** ** What the sweeps and the basket operations leave alone *)

Lemma filter_filter_same {A : Type} (f : A -> bool) (l : list A) :
  filter f (filter f l) = filter f l.
Proof.
  induction l as [|x l IH]; [reflexivity|].
  simpl. destruct (f x) eqn:E; [|exact IH].
  simpl. now rewrite E, IH.
Qed.

Lemma filter_filter_negb {A : Type} (f : A -> bool) (l : list A) :
  filter (fun x => negb (f x)) (filter f l) = [].
Proof.
  induction l as [|x l IH]; [reflexivity|].
  simpl. destruct (f x) eqn:E; [|exact IH].
  simpl. now rewrite E.
Qed.

Lemma release_counts_but_reserved (counts : list (Z * Z))
    (ps : list product) :
  map lot_but_reserved (release_counts counts ps) = map lot_but_reserved ps.
Proof.
  unfold release_counts. revert ps.
  induction counts as [|kc counts IH]; intro ps; [reflexivity|].
  simpl. rewrite IH. unfold release. now apply update_rows_keeps.
Qed.

Lemma store_baskets_but_basket (upds : list (list (Z * Q) * Z))
    (us : list user_row) :
  map user_but_basket
    (fold_left (fun acc upd => store_basket (fst upd) (snd upd) acc) upds us)
  = map user_but_basket us.
Proof.
  revert us. induction upds as [|upd upds IH]; intro us; [reflexivity|].
  simpl. rewrite IH. unfold store_basket. now apply update_rows_keeps.
Qed.

(** One operation other than a checkout writes nothing but the reserved
    counts and the stored baskets. *)
Lemma basket_operation_frame (BASKET_TIMEOUT : Z) (w : world)
    (op : operation) :
  (forall u t, op <> Checkout u t) ->
  let db := w_db w in
  let db' := w_db (run BASKET_TIMEOUT w op) in
  map lot_but_reserved (products db') = map lot_but_reserved (products db)
  /\ map user_but_basket (users db') = map user_but_basket (users db)
  /\ purchases db' = purchases db
  /\ discount_codes db' = discount_codes db.
Proof.
  intros Hop db db'. subst db db'.
  destruct op as [u city district p_type size price now|u pid now|u|u now
                 |now|u now]; cbn [run].
  - unfold handle_add_to_basket.
    destruct (first_by_id _) as [p|]; [|now repeat split].
    cbn [w_db products users purchases discount_codes with_products
           with_users].
    unfold store_basket. rewrite !update_rows_keeps by reflexivity.
    now repeat split.
  - unfold handle_remove_from_basket.
    destruct (find _ (basket (session w u))); [|now repeat split].
    cbn [w_db products users purchases discount_codes with_products
           with_users].
    unfold release. rewrite update_rows_keeps by reflexivity.
    destruct (existsb _ _); [|now repeat split].
    unfold store_basket. rewrite update_rows_keeps by reflexivity.
    now repeat split.
  - unfold handle_clear_basket.
    destruct (basket (session w u)) as [|item items]; [now repeat split|].
    cbn [w_db products users purchases discount_codes with_products
           with_users].
    rewrite release_counts_but_reserved.
    unfold store_basket. rewrite update_rows_keeps by reflexivity.
    now repeat split.
  - unfold clear_expired_basket.
    destruct (select_basket (w_db w) u) as [|e items]; [now repeat split|].
    destruct (filter _ (e :: items)); [now repeat split|].
    cbn [w_db products users purchases discount_codes with_products
           with_users].
    rewrite release_counts_but_reserved.
    unfold store_basket. rewrite update_rows_keeps by reflexivity.
    now repeat split.
  - unfold clear_all_expired_baskets.
    cbn [w_db products users purchases discount_codes with_products
           with_users].
    rewrite release_counts_but_reserved, store_baskets_but_basket.
    now repeat split.
  - exfalso. now apply (Hop u now).
Qed.

(** X1. Adding, removing, clearing and both sweeps write nothing but the
    reserved counts and the stored baskets: after any sequence of these
    operations every other column of the products and of the users (price,
    available count, balance, number of purchases), the purchases log and
    the discount codes are as they were. *)
Theorem basket_operations_write_only_holds (BASKET_TIMEOUT : Z)
    (ops : list operation) (w : world) :
  Forall (fun op => forall u t, op <> Checkout u t) ops ->
  let db := w_db w in
  let db' := w_db (run_all BASKET_TIMEOUT w ops) in
  map lot_but_reserved (products db') = map lot_but_reserved (products db)
  /\ map user_but_basket (users db') = map user_but_basket (users db)
  /\ purchases db' = purchases db
  /\ discount_codes db' = discount_codes db.
Proof.
  intro Hops. revert w.
  induction Hops as [|op ops Hop _ IH]; intro w; [now repeat split|].
  cbn [run_all fold_left]. cbv zeta.
  destruct (IH (run BASKET_TIMEOUT w op)) as (H1 & H2 & H3 & H4).
  destruct (basket_operation_frame BASKET_TIMEOUT w op Hop)
    as (G1 & G2 & G3 & G4).
  unfold run_all in *. cbv zeta in *.
  rewrite H1, H2, H3, H4. now repeat split.
Qed.

Lemma basket_operations_write_only_holds_witness :
  let ops :=
    [AddToBasket 2 "Riga" "Centre" "tea" "10g" 10 0; GlobalSweep 901] in
  let db' := w_db (run_all 900 one_free_lot ops) in
  map p_reserved
    (products
       (w_db (run_all 900 one_free_lot
                [AddToBasket 2 "Riga" "Centre" "tea" "10g" 10 0]))) = [1]
  /\ map lot_but_reserved (products db')
     = map lot_but_reserved (products (w_db one_free_lot))
  /\ map user_but_basket (users db')
     = map user_but_basket (users (w_db one_free_lot)).
Proof.
  intros ops db'. split; [reflexivity|].
  assert (Hops : Forall (fun op => forall u t, op <> Checkout u t) ops)
    by (repeat constructor; intros u t; discriminate).
  destruct (basket_operations_write_only_holds 900 ops one_free_lot Hops)
    as (H1 & H2 & _).
  split; [exact H1|exact H2].
Defined.

(** X2. Adding, removing, clearing and both sweeps keep the invariant of
    a lot: when the products have distinct ids and every lot has
    [0 <= reserved <= available], the same holds after any sequence of
    these operations. *)
Theorem basket_histories_keep_lots_ok (BASKET_TIMEOUT : Z)
    (ops : list operation) (w : world) :
  Forall (fun op => forall u t, op <> Checkout u t) ops ->
  NoDup (map p_id (products (w_db w))) ->
  lots_ok (w_db w) ->
  lots_ok (w_db (run_all BASKET_TIMEOUT w ops)).
Proof.
  intro Hops. revert w.
  induction Hops as [|op ops Hop _ IH]; intros w Hnd Hok; [exact Hok|].
  cbn [run_all fold_left]. apply IH.
  - destruct (basket_operation_frame BASKET_TIMEOUT w op Hop) as (G1 & _).
    cbv zeta in G1.
    assert (Hid : forall ps, map p_id (map lot_but_reserved ps) = map p_id ps)
      by (intro ps; rewrite map_map; now apply map_ext).
    rewrite <- Hid, G1, Hid. exact Hnd.
  - now apply basket_operations_keep_lots_ok.
Qed.

Lemma basket_histories_keep_lots_ok_witness :
  lots_ok
    (w_db
       (run_all 900 one_free_lot
          [AddToBasket 2 "Riga" "Centre" "tea" "10g" 10 0;
           AddToBasket 2 "Riga" "Centre" "tea" "10g" 10 1;
           RemoveFromBasket 2 1 2; GlobalSweep 901; ClearBasket 2;
           LazySweep 2 950])).
Proof.
  apply basket_histories_keep_lots_ok.
  - repeat constructor; intros u t; discriminate.
  - repeat constructor. intros [].
  - repeat constructor; simpl; lia.
Defined.

(** ** Sweeping twice *)

Section SweepTwice.

Variable BASKET_TIMEOUT : Z.
Variable now : Q.

Lemma release_row_keeps_price (counts : list (Z * Z)) (p : product) :
  let q :=
    fold_left
      (fun q kc =>
         if has_id (fst kc) q
         then set_reserved (Z.max 0 (p_reserved q - snd kc)) q
         else q) counts p in
  p_id q = p_id p /\ p_price q = p_price p.
Proof.
  revert p. induction counts as [|kc counts IH]; intro p; [now split|].
  simpl. destruct (has_id (fst kc) p).
  - destruct (IH (set_reserved (Z.max 0 (p_reserved p - snd kc)) p))
      as [H1 H2]. now split.
  - apply IH.
Qed.

Lemma find_map_keeps {A : Type} (cond : A -> bool) (g : A -> A)
    (l : list A) :
  (forall r, cond (g r) = cond r) ->
  find cond (map g l) = option_map g (find cond l).
Proof.
  intro Hg. induction l as [|r l IH]; [reflexivity|].
  simpl. rewrite Hg. destruct (cond r); [reflexivity|exact IH].
Qed.

Lemma userdata_item_released (counts : list (Z * Z)) (ps : list product)
    (e : Z * Q) :
  userdata_item (release_counts counts ps) e = userdata_item ps e.
Proof.
  unfold userdata_item, select_product. rewrite release_counts_rows.
  rewrite find_map_keeps.
  - destruct (find (has_id (fst e)) ps) as [p|]; [|reflexivity].
    simpl. destruct (release_row_keeps_price counts p) as [_ Hprice].
    cbv zeta in Hprice. now rewrite Hprice.
  - intro r. destruct (release_row_keeps_price counts r) as [Hid _].
    cbv zeta in Hid. apply (f_equal (fun i => i =? fst e) Hid).
Qed.

Lemma stored_basket_after_lazy_sweep (db : database) (ud : user_data)
    (user_id : Z) :
  select_basket (fst (clear_expired_basket BASKET_TIMEOUT db ud user_id now))
    user_id
  = filter (is_live BASKET_TIMEOUT now) (select_basket db user_id).
Proof.
  unfold clear_expired_basket.
  destruct (select_basket db user_id) as [|e items] eqn:Hb.
  - simpl. now rewrite Hb.
  - destruct (filter (is_expired BASKET_TIMEOUT now) (e :: items)) eqn:Hexp.
    + cbn [fst]. rewrite Hb. symmetry. apply (filter_all _ _ Hexp).
    + cbn [fst]. unfold select_basket, select_user at 1.
      cbn [users with_products with_users].
      rewrite select_user_store_basket.
      unfold select_basket in Hb.
      destruct (select_user db user_id); [reflexivity|discriminate].
Qed.

(** X3. The lazy sweep is idempotent: run again at the same time on the
    database and the session it left, it changes neither. *)
Theorem lazy_sweep_twice (db : database) (ud : user_data) (user_id : Z) :
  let swept := clear_expired_basket BASKET_TIMEOUT db ud user_id now in
  clear_expired_basket BASKET_TIMEOUT (fst swept) (snd swept) user_id now
  = swept.
Proof.
  intro swept.
  pose proof (stored_basket_after_lazy_sweep db ud user_id) as Hstored.
  fold swept in Hstored. subst swept.
  unfold clear_expired_basket at 1. rewrite Hstored. clear Hstored.
  unfold clear_expired_basket.
  destruct (select_basket db user_id) as [|e items] eqn:Hb; [reflexivity|].
  set (valid := filter (is_live BASKET_TIMEOUT now) (e :: items)).
  assert (Hvv : filter (is_live BASKET_TIMEOUT now) valid = valid)
    by apply filter_filter_same.
  assert (Hev : filter (is_expired BASKET_TIMEOUT now) valid = [])
    by apply (filter_filter_negb (is_live BASKET_TIMEOUT now)).
  destruct (filter (is_expired BASKET_TIMEOUT now) (e :: items)) eqn:Hexp.
  - cbn [fst snd].
    destruct valid as [|v vs] eqn:Hvalid.
    + reflexivity.
    + rewrite Hvv, Hev.
      destruct (flat_map (userdata_item (products db)) (v :: vs));
        reflexivity.
  - cbn [fst snd].
    destruct valid as [|v vs] eqn:Hvalid.
    + reflexivity.
    + rewrite Hvv, Hev. cbn [products with_products].
      assert (Hitems :
        flat_map
          (userdata_item
             (release_counts
                (Counter (map fst (p :: l))) (products db))) (v :: vs)
        = flat_map (userdata_item (products db)) (v :: vs)).
      { apply flat_map_ext. intro a. apply userdata_item_released. }
      rewrite Hitems.
      destruct (flat_map (userdata_item (products db)) (v :: vs));
        reflexivity.
Qed.

End SweepTwice.

Section GlobalSweepTwice.

Variable BASKET_TIMEOUT : Z.
Variable now : Q.
Variable db : database.

Hypothesis user_ids_unique : NoDup (map u_user_id (users db)).

Let swept := clear_all_expired_baskets BASKET_TIMEOUT db now.

Lemma users_after_global_sweep :
  users swept
  = map (fun u =>
           set_basket (filter (is_live BASKET_TIMEOUT now) (u_basket u)) u)
      (users db).
Proof.
  subst swept. unfold clear_all_expired_baskets.
  cbn [users with_products with_users].
  rewrite store_baskets_rows. apply map_ext_in. intros r Hr.
  now apply updates_of_row.
Qed.

Lemma stored_basket_after_global_sweep (user_id : Z) :
  select_basket swept user_id
  = filter (is_live BASKET_TIMEOUT now) (select_basket db user_id).
Proof.
  unfold select_basket, select_user. rewrite users_after_global_sweep.
  rewrite find_map_keeps by reflexivity.
  now destruct (find (is_user user_id) (users db)).
Qed.

Lemma nothing_expired_after_global_sweep :
  all_expired BASKET_TIMEOUT now (users swept) = []
  /\ user_basket_updates BASKET_TIMEOUT now (users swept) = [].
Proof.
  rewrite users_after_global_sweep. clear.
  induction (users db) as [|u us [IH1 IH2]]; [now split|].
  unfold all_expired, user_basket_updates in *. cbn [map flat_map].
  rewrite IH1, IH2. cbn [u_basket set_basket].
  pose proof (filter_filter_negb (is_live BASKET_TIMEOUT now) (u_basket u))
    as Hnone.
  change (fun x => negb (is_live BASKET_TIMEOUT now x))
    with (is_expired BASKET_TIMEOUT now) in Hnone.
  rewrite Hnone. split; [reflexivity|].
  destruct (filter (is_live BASKET_TIMEOUT now) (u_basket u)) as [|v vs]
    eqn:E; [reflexivity|].
  now rewrite Hnone.
Qed.

(** X4. The global sweep is idempotent: run again at the same time, it
    leaves the database as the first run left it. *)
Theorem global_sweep_twice :
  clear_all_expired_baskets BASKET_TIMEOUT swept now = swept.
Proof.
  destruct nothing_expired_after_global_sweep as [Hexp Hupd].
  unfold clear_all_expired_baskets at 1. rewrite Hexp, Hupd.
  subst swept. reflexivity.
Qed.

(** X5. A hold that the global sweep released is not released again by the
    lazy sweep: the lazy sweep of any shopper, run at the same time after
    the global sweep, leaves the database unchanged. *)
Theorem lazy_sweep_after_global_sweep (ud : user_data) (user_id : Z) :
  fst (clear_expired_basket BASKET_TIMEOUT swept ud user_id now) = swept.
Proof.
  pose proof (stored_basket_after_global_sweep user_id) as Hstored.
  unfold clear_expired_basket.
  destruct (select_basket swept user_id) as [|e items]; [reflexivity|].
  assert (Hnone : filter (is_expired BASKET_TIMEOUT now) (e :: items) = []).
  { rewrite Hstored.
    apply (filter_filter_negb (is_live BASKET_TIMEOUT now)). }
  now rewrite Hnone.
Qed.

End GlobalSweepTwice.

Lemma global_sweep_twice_witness :
  let swept := clear_all_expired_baskets 900 holding_since_0 901 in
  map p_reserved (products holding_since_0) = [1]
  /\ map p_reserved (products swept) = [0]
  /\ clear_all_expired_baskets 900 swept 901 = swept.
Proof.
  intro swept. split; [reflexivity|]. split; [reflexivity|].
  apply (global_sweep_twice 900 901 holding_since_0).
  simpl. constructor; [simpl; tauto|constructor].
Defined.

Lemma lazy_sweep_after_global_sweep_witness :
  let swept := clear_all_expired_baskets 900 holding_since_0 901 in
  map p_reserved (products swept) = [0]
  /\ fst (clear_expired_basket 900 swept session_since_0 1 901) = swept.
Proof.
  intro swept. split; [reflexivity|].
  apply (lazy_sweep_after_global_sweep 900 901 holding_since_0).
  simpl. constructor; [simpl; tauto|constructor].
Defined.

(** ** The basket handlers at their edges *)






(** ** The session after a sweep and after a view *)

Lemma products_after_lazy_sweep (BASKET_TIMEOUT : Z) (db : database)
    (ud : user_data) (user_id : Z) (now : Q) :
  exists counts,
    products (fst (clear_expired_basket BASKET_TIMEOUT db ud user_id now))
    = release_counts counts (products db).
Proof.
  unfold clear_expired_basket.
  destruct (select_basket db user_id) as [|e items]; [now exists []|].
  destruct (filter _ (e :: items)) as [|x xs]; [now exists []|].
  cbn [fst products with_products]. eexists. reflexivity.
Qed.

Lemma select_product_released_price (counts : list (Z * Z))
    (ps : list product) (pid : Z) (p : product) :
  select_product ps pid = Some p ->
  exists q, select_product (release_counts counts ps) pid = Some q
            /\ p_price q = p_price p.
Proof.
  intro Hp. unfold select_product in *. rewrite release_counts_rows.
  rewrite find_map_keeps.
  - rewrite Hp. simpl. eexists. split; [reflexivity|].
    now destruct (release_row_keeps_price counts p).
  - intro r. destruct (release_row_keeps_price counts r) as [Hid _].
    cbv zeta in Hid. apply (f_equal (fun i => i =? pid) Hid).
Qed.

Lemma session_basket_of_lazy_sweep (BASKET_TIMEOUT : Z) (db : database)
    (ud : user_data) (user_id : Z) (now : Q) :
  let swept := clear_expired_basket BASKET_TIMEOUT db ud user_id now in
  basket (snd swept)
  = flat_map (userdata_item (products db))
      (filter (is_live BASKET_TIMEOUT now) (select_basket db user_id))
  /\ (applied_discount (snd swept) <> None -> basket (snd swept) <> []).
Proof.
  intro swept. subst swept. unfold clear_expired_basket.
  destruct (select_basket db user_id) as [|e items].
  - cbn. split; [reflexivity|]. intro H. now contradiction H.
  - cbn [snd].
    destruct (flat_map (userdata_item (products db))
                (filter (is_live BASKET_TIMEOUT now) (e :: items)))
      as [|i0 rest] eqn:E.
    + cbn. split; [reflexivity|]. intro H. now contradiction H.
    + cbn. split; [reflexivity|]. intros _. discriminate.
Qed.

Lemma swept_items_have_rows (BASKET_TIMEOUT : Z) (db : database)
    (ud : user_data) (user_id : Z) (now : Q) :
  let swept := clear_expired_basket BASKET_TIMEOUT db ud user_id now in
  forall item, In item (basket (snd swept)) ->
    In (bi_product_id item, bi_timestamp item)
      (select_basket (fst swept) user_id)
    /\ (now - bi_timestamp item <= inject_Z BASKET_TIMEOUT)%Q
    /\ exists p,
         select_product (products (fst swept)) (bi_product_id item) = Some p
         /\ bi_price item = p_price p.
Proof.
  intros swept item Hitem.
  pose proof (stored_basket_after_lazy_sweep BASKET_TIMEOUT now db ud user_id)
    as Hstored.
  destruct (products_after_lazy_sweep BASKET_TIMEOUT db ud user_id now)
    as [counts Hps].
  destruct (session_basket_of_lazy_sweep BASKET_TIMEOUT db ud user_id now)
    as [Hbasket _].
  fold swept in Hstored, Hps, Hbasket.
  rewrite Hbasket in Hitem. rewrite Hstored, Hps.
  apply in_flat_map in Hitem. destruct Hitem as (e & He & Hitem).
  unfold userdata_item in Hitem.
  destruct (select_product (products db) (fst e)) as [p|] eqn:Hp;
    [|contradiction].
  destruct Hitem as [<-|[]]. cbn [bi_product_id bi_timestamp bi_price].
  split; [now destruct e|].
  apply filter_In in He. destruct He as [_ Hlive].
  split; [now apply Qle_bool_iff|].
  destruct (select_product_released_price counts _ _ _ Hp) as (q & Hq & Hprice).
  exists q. now split.
Qed.

(** X8. After the lazy sweep the session basket agrees with the store:
    every item of it is a hold of the shopper's stored basket that has not
    expired, its lot has a row, and it carries the price of that row; and
    an applied discount is left only beside a basket that is not empty. *)
Theorem session_basket_after_lazy_sweep (BASKET_TIMEOUT : Z) (db : database)
    (ud : user_data) (user_id : Z) (now : Q) :
  let swept := clear_expired_basket BASKET_TIMEOUT db ud user_id now in
  Forall
    (fun item =>
       In (bi_product_id item, bi_timestamp item)
         (select_basket (fst swept) user_id)
       /\ (now - bi_timestamp item <= inject_Z BASKET_TIMEOUT)%Q
       /\ exists p,
            select_product (products (fst swept)) (bi_product_id item)
            = Some p
            /\ bi_price item = p_price p)
    (basket (snd swept))
  /\ (applied_discount (snd swept) <> None -> basket (snd swept) <> []).
Proof.
  intro swept. split.
  - apply Forall_forall. intros item Hitem.
    now apply (swept_items_have_rows BASKET_TIMEOUT db ud user_id now).
  - apply (session_basket_of_lazy_sweep BASKET_TIMEOUT db ud user_id now).
Qed.

Lemma shown_prices_of_swept_basket (ps : list product)
    (items : list basket_item) :
  (forall item, In item items ->
     exists p, select_product ps (bi_product_id item) = Some p
               /\ bi_price item = p_price p) ->
  flat_map (fun item =>
              match select_product ps (bi_product_id item) with
              | Some p => [p_price p]
              | None => []
              end) items
  = map bi_price items.
Proof.
  intro H. induction items as [|item items IH]; [reflexivity|].
  cbn [flat_map map].
  destruct (H item (or_introl eq_refl)) as (p & Hp & Hprice).
  rewrite Hp, <- Hprice. cbn [app]. f_equal.
  apply IH. intros x Hx. apply H. now right.
Qed.

Lemma basket_total_of_prices (items : list basket_item) (start : Q) :
  fold_left Qplus (map bi_price items) start
  = fold_left (fun acc item => (acc + bi_price item)%Q) items start.
Proof.
  revert start. induction items as [|item items IH]; intro start;
    [reflexivity|].
  simpl. apply IH.
Qed.

Lemma view_writes_what_the_sweep_writes (BASKET_TIMEOUT : Z) (db : database)
    (ud : user_data) (user_id : Z) (now : Q) :
  fst (handle_view_basket BASKET_TIMEOUT db ud user_id now)
  = fst (clear_expired_basket BASKET_TIMEOUT db ud user_id now).
Proof.
  unfold handle_view_basket.
  destruct (clear_expired_basket BASKET_TIMEOUT db ud user_id now)
    as [db1 ud1].
  destruct (basket ud1) as [|item items]; [reflexivity|].
  destruct (flat_map _ (item :: items)); [reflexivity|].
  destruct (applied_discount ud1) as [info|]; [|reflexivity].
  now destruct (validate_discount_code _ _ _ _).
Qed.

(** X9. Viewing the basket writes to the database only what the lazy sweep
    writes, and the discount it leaves in the session is one the validator
    accepts now: the session is left with a discount only beside a basket
    that is not empty, for a code that the validator applies to the total
    of the basket, with the amount and the final total the validator
    returns for it. *)
Theorem view_keeps_only_a_valid_discount (BASKET_TIMEOUT : Z) (db : database)
    (ud : user_data) (user_id : Z) (now : Q) :
  let viewed := handle_view_basket BASKET_TIMEOUT db ud user_id now in
  fst viewed = fst (clear_expired_basket BASKET_TIMEOUT db ud user_id now)
  /\ forall info, applied_discount (snd viewed) = Some info ->
       basket (snd viewed) <> []
       /\ exists d,
            validate_discount_code (fst viewed) (ad_code info)
              (basket_total (basket (snd viewed))) now = CodeApplied d
            /\ ad_amount info = dd_discount_amount d
            /\ ad_final_total info = dd_final_total d.
Proof.
  intro viewed. subst viewed. unfold handle_view_basket.
  pose proof (swept_items_have_rows BASKET_TIMEOUT db ud user_id now)
    as Hrows.
  cbv zeta in Hrows.
  destruct (clear_expired_basket BASKET_TIMEOUT db ud user_id now)
    as [db1 ud1].
  cbn [fst snd] in *.
  destruct (basket ud1) as [|item items] eqn:Hb.
  { cbn. split; [reflexivity|]. discriminate. }
  rewrite (shown_prices_of_swept_basket (products db1) (item :: items))
    by (intros x Hx; now destruct (Hrows x Hx) as (_ & _ & H)).
  cbn [map].
  change (bi_price item :: map bi_price items)
    with (map bi_price (item :: items)).
  rewrite basket_total_of_prices.
  change (fold_left (fun acc i => (acc + bi_price i)%Q) (item :: items) 0%Q)
    with (basket_total (item :: items)).
  destruct (applied_discount ud1) as [info1|] eqn:Happlied.
  2:{ cbn [fst snd]. split; [reflexivity|]. intros info H. congruence. }
  destruct (validate_discount_code db1 (ad_code info1)
              (basket_total (item :: items)) now) as [| | | | | | |d] eqn:Hv;
    cbn [fst snd]; (split; [reflexivity|]); cbn; try discriminate.
  intros info H. injection H as <-. rewrite Hb.
  split; [discriminate|]. exists d. cbn. now split.
Qed.

(** ** The amounts of an applied code *)

Lemma round_half_even_near (x : Q) :
  (x - (1 # 2) <= inject_Z (round_half_even x) <= x + (1 # 2))%Q.
Proof.
  pose proof (Qfloor_le x) as Hlo. pose proof (Qlt_floor x) as Hhi.
  rewrite inject_Z_plus in Hhi. change (inject_Z 1) with 1%Q in Hhi.
  destruct (round_half_even_cases x) as [(-> & H1 & _)|(-> & H1 & _)].
  - split; lra.
  - rewrite inject_Z_plus. change (inject_Z 1) with 1%Q. split; lra.
Qed.

Lemma round2_near (x : Q) :
  (x - (1 # 200) <= round2 x <= x + (1 # 200))%Q.
Proof.
  unfold round2.
  pose proof (round_half_even_near (x * 100)) as H.
  rewrite (Qmake_Qdiv (round_half_even (x * 100)) 100).
  change (inject_Z (Z.pos 100)) with 100%Q.
  split.
  - apply Qle_shift_div_l; [reflexivity|]. lra.
  - apply Qle_shift_div_r; [reflexivity|]. lra.
Qed.

Lemma round2_compat (x y : Q) : (x == y)%Q -> round2 x = round2 y.
Proof.
  intro H. unfold round2. f_equal. apply Z.le_antisymm.
  - apply round_half_even_monotone. rewrite H. apply Qle_refl.
  - apply round_half_even_monotone. rewrite H. apply Qle_refl.
Qed.

(** What an applied code was computed from. *)
Lemma applied_code_amounts (db : database) (code_text : string)
    (total now : Q) (d : discount_details) :
  validate_discount_code db code_text total now = CodeApplied d ->
  exists c amount,
    select_discount_code db code_text = Some c
    /\ dc_is_active c = true
    /\ max_uses_reached c = false
    /\ raw_discount (dc_discount_type c) (dc_value c) total = Some amount
    /\ dd_discount_amount d = round2 (py_min amount total)
    /\ dd_final_total d = round2 (py_max 0 (total - py_min amount total)).
Proof.
  unfold validate_discount_code.
  destruct (String.eqb code_text ""); [discriminate|].
  destruct (select_discount_code db code_text) as [c|]; [|discriminate].
  destruct (dc_is_active c) eqn:Hactive; [|discriminate]. cbn [negb].
  destruct (expiry_failure c now) as [f|] eqn:Hexp.
  { unfold expiry_failure in Hexp.
    destruct (dc_expiry_date c) as [[t|]|]; try discriminate.
    - destruct (Qlt_bool t now); inversion Hexp; subst; discriminate.
    - inversion Hexp; subst; discriminate. }
  destruct (max_uses_reached c) eqn:Hmax; [discriminate|].
  destruct (raw_discount (dc_discount_type c) (dc_value c) total)
    as [amount|] eqn:Hraw; [|discriminate].
  intro H. injection H as <-. exists c, amount. now repeat split.
Qed.

Lemma raw_discount_cases (dtype : string) (value total amount : Q) :
  raw_discount dtype value total = Some amount ->
  (dtype = "percentage"%string /\ amount = (total * value / 100)%Q)
  \/ (dtype = "fixed"%string /\ amount = value).
Proof.
  unfold raw_discount.
  destruct (String.eqb_spec dtype "percentage") as [E|_].
  - intro H. left. split; [exact E|congruence].
  - destruct (String.eqb_spec dtype "fixed") as [E|_]; [|discriminate].
    intro H. right. split; [exact E|congruence].
Qed.

Section AppliedCode.

Variables (db : database) (code_text : string) (total now : Q)
  (d : discount_details).

Hypothesis applied :
  validate_discount_code db code_text total now = CodeApplied d.

(** X10. The discount amount and the final total of an applied code add up
    to the subtotal within one cent, when the subtotal and the value of the
    code are not negative. *)
Theorem discount_and_total_add_up_within_a_cent :
  (0 <= total)%Q ->
  (forall c, select_discount_code db code_text = Some c ->
             (0 <= dc_value c)%Q) ->
  (total - (1 # 100) <= dd_discount_amount d + dd_final_total d
   <= total + (1 # 100))%Q.
Proof.
  intros Htotal Hvalue.
  destruct (applied_code_amounts _ _ _ _ _ applied)
    as (c & amount & Hc & _ & _ & Hraw & -> & ->).
  specialize (Hvalue c Hc).
  assert (Hamount : (0 <= amount)%Q).
  { destruct (raw_discount_cases _ _ _ _ Hraw) as [[_ ->]|[_ ->]];
      [|exact Hvalue].
    unfold Qdiv. apply Qmult_le_0_compat; [|discriminate].
    now apply Qmult_le_0_compat. }
  destruct (py_min_spec amount total) as (Hm1 & Hm2 & Hm3).
  assert (Hmin : (0 <= py_min amount total)%Q)
    by (destruct Hm3 as [E|E]; rewrite E; assumption).
  destruct (py_max_spec 0 (total - py_min amount total)) as (Hx1 & Hx2 & Hx3).
  assert (Hmax : (py_max 0 (total - py_min amount total)
                  == total - py_min amount total)%Q)
    by (destruct Hx3 as [E|E]; rewrite E; lra).
  pose proof (round2_near (py_min amount total)) as R1.
  pose proof (round2_near (py_max 0 (total - py_min amount total))) as R2.
  split; lra.
Qed.

(** X11. A code worth at least the subtotal makes the basket free: for a
    fixed code of a value not below the subtotal, and for a percentage code
    of a hundred per cent or more, the final total is zero and the discount
    amount is the subtotal, rounded. *)
Theorem discount_of_at_least_the_subtotal :
  (0 <= total)%Q ->
  (forall c, select_discount_code db code_text = Some c ->
             (dc_discount_type c = "fixed"%string /\ (total <= dc_value c)%Q)
             \/ (dc_discount_type c = "percentage"%string
                 /\ (100 <= dc_value c)%Q)) ->
  dd_discount_amount d = round2 total /\ (dd_final_total d == 0)%Q.
Proof.
  intros Htotal Hworth.
  destruct (applied_code_amounts _ _ _ _ _ applied)
    as (c & amount & Hc & _ & _ & Hraw & -> & ->).
  specialize (Hworth c Hc).
  assert (Hamount : (total <= amount)%Q).
  { destruct (raw_discount_cases _ _ _ _ Hraw) as [[Ht ->]|[Ht ->]];
      destruct Hworth as [[Hw Hv]|[Hw Hv]]; try congruence.
    assert (H : (0 <= total * (dc_value c - 100))%Q)
      by (apply Qmult_le_0_compat; lra).
    apply Qle_shift_div_l; [reflexivity|]. lra. }
  destruct (py_min_spec amount total) as (Hm1 & Hm2 & Hm3).
  assert (Hmin : (py_min amount total == total)%Q)
    by (destruct Hm3 as [E|E]; rewrite E; lra).
  destruct (py_max_spec 0 (total - py_min amount total)) as (Hx1 & Hx2 & Hx3).
  assert (Hmax : (py_max 0 (total - py_min amount total) == 0)%Q)
    by (destruct Hx3 as [E|E]; rewrite E; lra).
  split; [now apply round2_compat|].
  rewrite (round2_compat _ _ Hmax). reflexivity.
Qed.

End AppliedCode.

Lemma discount_and_total_add_up_within_a_cent_witness :
  exists d,
    validate_discount_code (mkDb [] [] [] [save10]) "SAVE10" 12.5 0
    = CodeApplied d
    /\ (12.5 - (1 # 100) <= dd_discount_amount d + dd_final_total d
        <= 12.5 + (1 # 100))%Q.
Proof.
  eexists. split; [reflexivity|].
  apply (discount_and_total_add_up_within_a_cent (mkDb [] [] [] [save10])
           "SAVE10" 12.5 0 _ eq_refl).
  - discriminate.
  - intros c Hc. injection Hc as <-. discriminate.
Defined.

Lemma discount_of_at_least_the_subtotal_witness :
  exists d,
    validate_discount_code (mkDb [] [] [] [five_off]) "FIVE" 3 0
    = CodeApplied d
    /\ dd_discount_amount d = round2 3 /\ (dd_final_total d == 0)%Q.
Proof.
  eexists. split; [reflexivity|].
  apply (discount_of_at_least_the_subtotal (mkDb [] [] [] [five_off])
           "FIVE" 3 0 _ eq_refl).
  - discriminate.
  - intros c Hc. injection Hc as <-. left. split; [reflexivity|discriminate].
Defined.

(** ** What a settlement writes *)

Section SettlementWrites.

Variables (db : database) (ud : user_data) (user_id : Z)
  (amount_to_deduct : Q) (basket_snapshot : list basket_item)
  (discount_code_used : option string) (purchase_time : Q).

Let result :=
  process_purchase_with_balance db ud user_id amount_to_deduct
    basket_snapshot discount_code_used purchase_time.

Let tx :=
  purchase_transaction db user_id amount_to_deduct basket_snapshot
    discount_code_used purchase_time.


Lemma result_of_transaction :
  pr_success result = match tx_end tx with Committed => true | _ => false end
  /\ pr_db result
     = match tx_end tx with
       | Committed => delete_purchased (tx_db tx) (tx_processed tx)
       | _ => tx_db tx
       end
  /\ (tx_end tx <> Committed -> tx_db tx = db /\ pr_user_data result = ud).
Proof.
  subst result. unfold process_purchase_with_balance. fold tx.
  assert (Hsame : tx_end tx <> Committed -> tx_db tx = db).
  { subst tx. unfold purchase_transaction.
    destruct basket_snapshot; [reflexivity|].
    destruct (Qlt_bool amount_to_deduct 0); [reflexivity|].
    destruct (select_user db user_id) as [u|]; [|reflexivity].
    destruct (Qlt_bool (u_balance u) amount_to_deduct); [reflexivity|].
    destruct (rowcount _ (users db) =? 0); [reflexivity|].
    destruct (purchases_to_insert _); [reflexivity|].
    intro H. now contradiction H. }
  destruct (tx_end tx); cbn; (split; [reflexivity|split; [reflexivity|]]);
    intro H; try (now contradiction H);
    (split; [apply Hsame; discriminate|reflexivity]).
Qed.


(** X13. The settlement never overdraws.  When the shopper has no row or a
    balance below the amount, it fails and writes nothing; when it
    succeeds, the shopper's balance is the balance of before less the
    amount, it is not negative, and the amount was not negative. *)
Theorem settlement_never_overdraws :
  ((forall u, select_user db user_id = Some u ->
              (u_balance u < amount_to_deduct)%Q) ->
   pr_success result = false /\ pr_db result = db
   /\ pr_user_data result = ud)
  /\ (pr_success result = true ->
      exists u u',
        select_user db user_id = Some u
        /\ select_user (pr_db result) user_id = Some u'
        /\ u_balance u' = (u_balance u - amount_to_deduct)%Q
        /\ (0 <= amount_to_deduct <= u_balance u)%Q).
Proof.
  destruct result_of_transaction as (Hok & Hdb & Hfail).
  split.
  - intro Hlow.
    assert (Hend : tx_end tx <> Committed).
    { subst tx. unfold purchase_transaction.
      destruct basket_snapshot; [discriminate|].
      destruct (Qlt_bool amount_to_deduct 0); [discriminate|].
      destruct (select_user db user_id) as [u|]; [|discriminate].
      specialize (Hlow u eq_refl). apply Qlt_bool_iff in Hlow.
      rewrite Hlow. discriminate. }
    destruct (Hfail Hend) as [Hsame Hud].
    rewrite Hok, Hdb.
    destruct (tx_end tx); now repeat split.
  - intro Hsuccess. rewrite Hok in Hsuccess.
    destruct (tx_end tx) eqn:Hend; try discriminate.
    destruct (committed_transaction db ud user_id amount_to_deduct
                basket_snapshot discount_code_used purchase_time Hend)
      as (u & Hu & _ & _ & Hsel & _).
    eexists u, _. split; [exact Hu|]. split.
    { rewrite Hdb. unfold select_user.
      destruct (users_delete_purchased (tx_db tx) (tx_processed tx))
        as (-> & _). exact Hsel. }
    split; [reflexivity|].
    subst tx. unfold purchase_transaction in Hend.
    destruct basket_snapshot; [discriminate|].
    destruct (Qlt_bool amount_to_deduct 0) eqn:Hneg; [discriminate|].
    rewrite Hu in Hend.
    destruct (Qlt_bool (u_balance u) amount_to_deduct) eqn:Hlow;
      [discriminate|].
    apply Qlt_bool_false_iff in Hneg. apply Qlt_bool_false_iff in Hlow.
    now split.
Qed.

(** X14. A settlement that succeeds counts one use of the code it was
    given and of no other code, raises the shopper's number of purchases by
    the number of records it wrote, and empties the shopper's stored
    basket, the session basket and the applied discount. *)
Theorem settlement_closes_the_basket :
  pr_success result = true ->
  discount_codes (pr_db result)
  = map (fun c =>
           if is_used_code discount_code_used c
           then set_uses_count (dc_uses_count c + 1) c else c)
      (discount_codes db)
  /\ (exists u u',
        select_user db user_id = Some u
        /\ select_user (pr_db result) user_id = Some u'
        /\ u_basket u' = []
        /\ u_total_purchases u'
           = u_total_purchases u
             + Z.of_nat (List.length (purchases (pr_db result)))
             - Z.of_nat (List.length (purchases db)))
  /\ basket (pr_user_data result) = []
  /\ applied_discount (pr_user_data result) = None.
Proof.
  intro Hsuccess.
  destruct result_of_transaction as (Hok & Hdb & _).
  rewrite Hok in Hsuccess.
  destruct (tx_end tx) eqn:Hend; try discriminate.
  destruct (committed_transaction db ud user_id amount_to_deduct
              basket_snapshot discount_code_used purchase_time Hend)
    as (u & Hu & _ & _ & Hsel & Hpur & Hcodes & _).
  destruct (users_delete_purchased (tx_db tx) (tx_processed tx))
    as (Hus & Hpu & Hdc).
  split.
  { rewrite Hdb, Hdc. fold tx in Hcodes. rewrite Hcodes.
    unfold count_use, is_used_code.
    destruct discount_code_used as [code|];
      [|now rewrite map_id].
    destruct (String.eqb code ""); [now rewrite map_id|reflexivity]. }
  split.
  { eexists u, _. split; [exact Hu|]. split.
    - rewrite Hdb. unfold select_user. rewrite Hus. exact Hsel.
    - split; [reflexivity|]. cbn [u_total_purchases].
      rewrite Hdb, Hpu. fold tx in Hpur. rewrite Hpur, length_app.
      lia. }
  subst result. unfold process_purchase_with_balance. fold tx.
  rewrite Hend. now split.
Qed.

End SettlementWrites.

Lemma settlement_closes_the_basket_witness :
  let result :=
    process_purchase_with_balance ready_to_pay_with_codes session_since_0
      1 9 [mkItem 1 10 0] (Some "SAVE10"%string) 5 in
  pr_success result = true
  /\ map dc_uses_count (discount_codes ready_to_pay_with_codes) = [0; 0]
  /\ map dc_uses_count (discount_codes (pr_db result)) = [1; 0]
  /\ basket (pr_user_data result) = [].
Proof.
  intro result.
  assert (Hok : pr_success result = true) by reflexivity.
  destruct (settlement_closes_the_basket ready_to_pay_with_codes
              session_since_0 1 9 [mkItem 1 10 0] (Some "SAVE10"%string) 5
              Hok) as (Hcodes & _ & Hbasket & _).
  fold result in Hcodes, Hbasket.
  split; [exact Hok|]. split; [reflexivity|].
  split; [now rewrite Hcodes|exact Hbasket].
Defined.

(** ** The checkout *)

Lemma lazy_sweep_again_keeps_database (BASKET_TIMEOUT : Z) (db : database)
    (ud ud' : user_data) (user_id : Z) (now : Q) :
  let swept := fst (clear_expired_basket BASKET_TIMEOUT db ud user_id now) in
  fst (clear_expired_basket BASKET_TIMEOUT swept ud' user_id now) = swept.
Proof.
  intro swept.
  pose proof (stored_basket_after_lazy_sweep BASKET_TIMEOUT now db ud user_id)
    as Hstored.
  fold swept in Hstored.
  unfold clear_expired_basket at 1.
  destruct (select_basket swept user_id) as [|e items]; [reflexivity|].
  assert (Hnone : filter (is_expired BASKET_TIMEOUT now) (e :: items) = []).
  { rewrite Hstored.
    apply (filter_filter_negb (is_live BASKET_TIMEOUT now)). }
  now rewrite Hnone.
Qed.

(** X15. A checkout that does not pay writes only what the lazy sweep
    writes: when the basket is empty, when no item of it has a row, when the
    balance does not cover the total, and when the settlement fails, the
    database is the one the sweep left.  A refusal for insufficient funds
    reports the total and a balance that is below it. *)
Theorem checkout_without_payment_only_sweeps (BASKET_TIMEOUT : Z)
    (db : database) (ud : user_data) (user_id : Z) (now : Q) :
  let swept := fst (clear_expired_basket BASKET_TIMEOUT db ud user_id now) in
  let '(db', _, answer) :=
    handle_confirm_pay BASKET_TIMEOUT db ud user_id now in
  match answer with
  | PaidWithBalance _ result =>
      if pr_success result then True else db' = swept
  | InsufficientFunds required balance =>
      db' = swept /\ (balance < required)%Q
  | _ => db' = swept
  end.
Proof.
  intro swept. unfold handle_confirm_pay, prepare_checkout.
  pose proof (fun ud' =>
                lazy_sweep_again_keeps_database BASKET_TIMEOUT db ud ud'
                  user_id now) as Hagain.
  cbv zeta in Hagain. subst swept.
  destruct (clear_expired_basket BASKET_TIMEOUT db ud user_id now)
    as [db1 ud1].
  cbn [fst] in *.
  assert (Hview : forall ud',
            fst (handle_view_basket BASKET_TIMEOUT db1 ud' user_id now)
            = db1).
  { intro ud'.
    rewrite view_writes_what_the_sweep_writes. apply Hagain. }
  destruct (basket ud1) as [|item items].
  { specialize (Hview ud1).
    destruct (handle_view_basket BASKET_TIMEOUT db1 ud1 user_id now).
    exact Hview. }
  destruct (flat_map (snapshot_line (products db1)) (item :: items))
    as [|line lines]; [reflexivity|].
  destruct (checkout_total db1 ud1 (basket_total (line :: lines)) now)
    as [[final_total code] ud2].
  destruct (Qlt_bool final_total 0); [reflexivity|].
  destruct (Qle_bool final_total _) eqn:Hfunds.
  2:{ split; [reflexivity|]. apply Qlt_bool_iff. unfold Qlt_bool.
      now rewrite Hfunds. }
  destruct (result_of_transaction db1 ud2 user_id final_total
              (line :: lines) code now) as (Hok & Hdb & Hfail).
  set (r := process_purchase_with_balance db1 ud2 user_id final_total
              (line :: lines) code now) in *.
  destruct (pr_success r) eqn:Hsuccess; [now rewrite Hsuccess|].
  specialize (Hview (pr_user_data r)).
  assert (Hsame : pr_db r = db1).
  { rewrite Hdb.
    destruct (tx_end _) eqn:Hend; try discriminate;
      apply Hfail; discriminate. }
  rewrite Hsame.
  destruct (handle_view_basket BASKET_TIMEOUT db1 _ user_id now).
  rewrite Hsuccess. exact Hview.
Qed.

Lemma snapshot_lines_have_rows (ps : list product)
    (items : list basket_item) :
  Forall
    (fun line =>
       exists p,
         select_product ps (bi_product_id line) = Some p
         /\ bi_price line = p_price p)
    (flat_map (snapshot_line ps) items).
Proof.
  induction items as [|item items IH]; [constructor|].
  cbn [flat_map]. apply Forall_app. split; [|exact IH].
  unfold snapshot_line.
  destruct (select_product ps (bi_product_id item)) as [p|] eqn:Hp;
    [|constructor].
  constructor; [|constructor]. exists p. now split.
Qed.

(** X16. A checkout that goes on to the settlement charges the prices of
    the table within the balance.  The snapshot it hands over is not empty,
    every line of it names a lot that has a row after the lazy sweep and
    carries the price of that row (not the price stored when the lot was
    added), and the total is not negative and not above the shopper's
    balance; without a code the total is the sum of these prices. *)
Theorem checkout_charges_table_prices_within_balance (BASKET_TIMEOUT : Z)
    (db : database) (ud : user_data) (user_id : Z) (now : Q)
    (db1 : database) (ud1 : user_data) (final_total : Q)
    (snapshot : list basket_item) (code : option string) :
  prepare_checkout BASKET_TIMEOUT db ud user_id now
  = Pay db1 ud1 final_total snapshot code ->
  db1 = fst (clear_expired_basket BASKET_TIMEOUT db ud user_id now)
  /\ snapshot <> []
  /\ Forall
       (fun line =>
          exists p,
            select_product (products db1) (bi_product_id line) = Some p
            /\ bi_price line = p_price p) snapshot
  /\ (0 <= final_total)%Q
  /\ (final_total
      <= match select_user db1 user_id with
         | Some u => u_balance u
         | None => 0
         end)%Q
  /\ (code = None -> final_total = basket_total snapshot).
Proof.
  intro Hplan.
  pose proof (checkout_total_covers_the_snapshot _ _ _ _ _ _ _ _ _ _ Hplan)
    as Htotal.
  revert Hplan. unfold prepare_checkout.
  destruct (clear_expired_basket BASKET_TIMEOUT db ud user_id now)
    as [db0 ud0] eqn:Hsweep.
  destruct (basket ud0) as [|item items] eqn:Hbasket.
  { destruct (handle_view_basket _ _ _ _ _); discriminate. }
  pose proof (snapshot_lines_have_rows (products db0) (item :: items))
    as Hrows.
  destruct (flat_map (snapshot_line (products db0)) (item :: items))
    as [|line lines]; [discriminate|].
  destruct (checkout_total db0 ud0 (basket_total (line :: lines)) now)
    as [[total code'] ud2].
  destruct (Qlt_bool total 0) eqn:Hneg; [discriminate|].
  destruct (Qle_bool total _) eqn:Hbal; [|discriminate].
  intro H. injection H as <- _ <- <- <-.
  split; [reflexivity|]. split; [discriminate|]. split; [exact Hrows|].
  split; [now apply Qlt_bool_false_iff|].
  split; [now apply Qle_bool_iff|].
  intros ->. exact Htotal.
Qed.

Lemma checkout_charges_table_prices_within_balance_witness :
  exists db1 ud1 snapshot,
    prepare_checkout 900 second_lot_gone session_two_lots 1 5
    = Pay db1 ud1 10 snapshot None
    /\ map bi_product_id snapshot = [1]
    /\ (10 : Q) = basket_total snapshot
    /\ Forall
         (fun line =>
            exists p,
              select_product (products db1) (bi_product_id line) = Some p
              /\ bi_price line = p_price p) snapshot.
Proof.
  eexists _, _, _. split; [reflexivity|]. split; [reflexivity|].
  destruct (checkout_charges_table_prices_within_balance 900
              second_lot_gone session_two_lots 1 5 _ _ 10 _ None eq_refl)
    as (_ & _ & Hrows & _ & _ & Hsum).
  split; [now apply Hsum|exact Hrows].
Defined.

(** ** Top-ups *)

(** X17. A refill credits one shopper and nothing else.  It succeeds
    exactly when the amount is positive and the shopper has a row; then the
    shopper's balance is the balance of before plus the amount, and every
    other shopper's row, the products, the purchases and the codes are
    unchanged.  When it fails the database is unchanged. *)
Theorem refill_credits_one_shopper (db : database) (user_id : Z)
    (amount_to_add : Q) (invoice_id : Z) :
  let refilled :=
    process_successful_refill db user_id amount_to_add invoice_id in
  (snd refilled = true
   <-> (0 < amount_to_add)%Q /\ select_user db user_id <> None)
  /\ (snd refilled = false -> fst refilled = db)
  /\ (snd refilled = true ->
      option_map u_balance (select_user (fst refilled) user_id)
      = option_map (fun u => (u_balance u + amount_to_add)%Q)
          (select_user db user_id)
      /\ (forall other, other <> user_id ->
            select_user (fst refilled) other = select_user db other)
      /\ products (fst refilled) = products db
      /\ purchases (fst refilled) = purchases db
      /\ discount_codes (fst refilled) = discount_codes db).
Proof.
  intro refilled. subst refilled. rewrite process_successful_refill_spec.
  destruct (Qle_bool amount_to_add 0) eqn:Hamount.
  { cbn. split; [|split; [reflexivity|discriminate]].
    split; [discriminate|]. intros [Hpos _].
    apply Qle_bool_iff in Hamount. lra. }
  assert (Hpos : (0 < amount_to_add)%Q)
    by (apply Qlt_bool_iff; unfold Qlt_bool; now rewrite Hamount).
  destruct (select_user db user_id) as [u|] eqn:Hu.
  2:{ cbn. split; [|split; [reflexivity|discriminate]].
      split; [discriminate|]. intros [_ H]. now contradiction H. }
  cbn [fst snd]. split; [|split; [discriminate|]].
  { split; [|reflexivity]. intros _. split; [exact Hpos|discriminate]. }
  intros _. split; [|split; [|now repeat split]].
  - unfold select_user at 1. cbn [users with_users].
    rewrite find_update_rows by reflexivity.
    unfold select_user in Hu. now rewrite Hu.
  - intros other Hother. unfold select_user. cbn [users with_users].
    apply find_update_rows_other; [reflexivity|].
    intros r Hr. unfold is_user in *. apply Z.eqb_eq in Hr.
    apply Z.eqb_neq. congruence.
Qed.

(** X18. A payment check credits only a pending refill that was paid.  When
    a check changes the database, the gateway reported the invoice paid,
    the session's pending payment named that invoice as a refill, the
    check has removed it from the session, and what changed is one
    successful refill of the shopper. *)
Theorem check_credits_only_a_pending_refill (db : database)
    (ud : user_data) (user_id invoice_id : Z) (invoices : option invoice) :
  let checked :=
    handle_check_cryptobot_payment db ud user_id invoice_id invoices in
  fst checked <> db ->
  exists inv pp amount,
    invoices = Some inv
    /\ inv_status inv = "paid"%string
    /\ pending_payment ud = Some pp
    /\ pp_invoice_id pp = invoice_id
    /\ pp_type pp = "refill"%string
    /\ pending_payment (snd checked) = None
    /\ process_successful_refill db user_id amount invoice_id
       = (fst checked, true).
Proof.
  intro checked. subst checked. unfold handle_check_cryptobot_payment.
  destruct invoices as [inv|]; [|intro H; now contradiction H].
  destruct (String.eqb_spec (inv_status inv) "paid") as [Hpaid|_].
  2:{ destruct (String.eqb (inv_status inv) "expired");
        [intro H; now contradiction H|].
      destruct (String.eqb (inv_status inv) "active");
        intro H; now contradiction H. }
  destruct (pending_payment ud) as [pp|]; [|intro H; now contradiction H].
  destruct (pp_invoice_id pp =? invoice_id) eqn:Hcur;
    [|intro H; now contradiction H].
  cbn [negb].
  destruct (String.eqb_spec (pp_type pp) "refill") as [Hrefill|_].
  2:{ destruct (String.eqb (pp_type pp) "purchase");
        intro H; now contradiction H. }
  destruct (match inv_paid_fiat_amount inv with
            | Some paid => Some paid
            | None => pp_fiat_total pp
            end) as [amount|]; [|intro H; now contradiction H].
  destruct (Qle_bool amount 0); [intro H; now contradiction H|].
  destruct (process_successful_refill db user_id amount invoice_id)
    as [db' ok] eqn:Hrun.
  destruct ok; cbn [fst snd].
  - intros _. exists inv, pp, amount.
    apply Z.eqb_eq in Hcur. now repeat split.
  - intro H. exfalso. apply H.
    rewrite process_successful_refill_spec in Hrun.
    destruct (Qle_bool amount 0); [now injection Hrun|].
    destruct (select_user db user_id); [discriminate|now injection Hrun].
Qed.

Lemma check_credits_only_a_pending_refill_witness :
  let checked :=
    handle_check_cryptobot_payment topped_up_never waiting_for_77 1 77
      (Some paid_5) in
  option_map u_balance (select_user (fst checked) 1) = Some (20 + 5)%Q
  /\ exists amount,
       process_successful_refill topped_up_never 1 amount 77
       = (fst checked, true).
Proof.
  intro checked. split; [reflexivity|].
  assert (Hchanged : fst checked <> topped_up_never) by discriminate.
  destruct (check_credits_only_a_pending_refill topped_up_never
              waiting_for_77 1 77 (Some paid_5) Hchanged)
    as (inv & pp & amount & _ & _ & _ & _ & _ & _ & Hrun).
  exists amount. exact Hrun.
Defined.

(** ** Entering a code, then paying *)





(** ** The profile *)

(** X20. The progress bar agrees with the status.  The bar always shows
    five segments, none filled for a negative count; it is full exactly
    when the status is VIP, and shows three or four filled segments exactly
    when the status is Regular. *)
Theorem progress_bar_agrees_with_status (purchases : Z) :
  0 <= filled_segments purchases <= 5
  /\ get_progress_bar purchases
     = ("[" ++ str_repeat "🟩" (Z.to_nat (filled_segments purchases))
            ++ str_repeat "⬜️" (5 - Z.to_nat (filled_segments purchases))
            ++ "]")%string
  /\ (purchases < 0 <-> filled_segments purchases = 0)
  /\ (get_user_status purchases = "VIP 👑"%string
      <-> get_progress_bar purchases = "[🟩🟩🟩🟩🟩]"%string)
  /\ (get_user_status purchases = "Regular ⭐"%string
      <-> 3 <= filled_segments purchases <= 4)
  /\ (get_user_status purchases = "New 🌱"%string
      <-> filled_segments purchases <= 2).
Proof.
  unfold get_progress_bar, get_user_status, filled_segments.
  cbn [filter].
  destruct (0 <=? purchases) eqn:H0; destruct (2 <=? purchases) eqn:H2;
    destruct (5 <=? purchases) eqn:H5; destruct (8 <=? purchases) eqn:H8;
    destruct (10 <=? purchases) eqn:H10;
    try (exfalso; lia).
  all: cbn.
  all: repeat split; try lia; try discriminate; try reflexivity.
  all: try (intros; lia); try (intros; discriminate).
Qed.

(** ** Removing a code *)

Lemma lazy_sweep_applies_no_code (BASKET_TIMEOUT : Z) (db : database)
    (ud : user_data) (user_id : Z) (now : Q) :
  applied_discount ud = None ->
  applied_discount (snd (clear_expired_basket BASKET_TIMEOUT db ud user_id now))
  = None.
Proof.
  intro Hnone. unfold clear_expired_basket.
  destruct (select_basket db user_id) as [|e items]; [reflexivity|].
  cbn [snd]. destruct (flat_map _ _); [reflexivity|exact Hnone].
Qed.

Lemma lazy_sweep_database_of_any_session (BASKET_TIMEOUT : Z)
    (db : database) (ud ud' : user_data) (user_id : Z) (now : Q) :
  fst (clear_expired_basket BASKET_TIMEOUT db ud user_id now)
  = fst (clear_expired_basket BASKET_TIMEOUT db ud' user_id now).
Proof.
  unfold clear_expired_basket.
  now destruct (select_basket db user_id).
Qed.

Lemma view_applies_no_code (BASKET_TIMEOUT : Z) (db : database)
    (ud : user_data) (user_id : Z) (now : Q) :
  applied_discount ud = None ->
  applied_discount (snd (handle_view_basket BASKET_TIMEOUT db ud user_id now))
  = None.
Proof.
  intro Hnone. unfold handle_view_basket.
  pose proof (lazy_sweep_applies_no_code BASKET_TIMEOUT db ud user_id now
                Hnone) as Hswept.
  destruct (clear_expired_basket BASKET_TIMEOUT db ud user_id now)
    as [db1 ud1].
  cbn [snd] in Hswept.
  destruct (basket ud1); [reflexivity|].
  destruct (flat_map _ _); [reflexivity|].
  now rewrite Hswept.
Qed.

(** X21. A removed code is not charged.  [remove_discount] writes to the
    database only what the lazy sweep writes and leaves the session without
    a code, whatever code was applied; a checkout of that session, at any
    later time, that goes on to the settlement hands it no code and the
    plain sum of the snapshot's prices. *)
Theorem removed_code_is_not_charged (BASKET_TIMEOUT : Z) (db : database)
    (ud : user_data) (user_id : Z) (now later : Q) :
  let removed := remove_discount BASKET_TIMEOUT db ud user_id now in
  fst removed = fst (clear_expired_basket BASKET_TIMEOUT db ud user_id now)
  /\ applied_discount (snd removed) = None
  /\ forall db2 ud2 total snapshot code,
       prepare_checkout BASKET_TIMEOUT (fst removed) (snd removed) user_id
         later
       = Pay db2 ud2 total snapshot code ->
       code = None /\ total = basket_total snapshot
       /\ applied_discount ud2 = None.
Proof.
  intro removed. subst removed. unfold remove_discount.
  set (ud0 := with_applied_discount None ud).
  assert (Hnone : applied_discount
                    (snd (handle_view_basket BASKET_TIMEOUT db ud0 user_id
                            now)) = None)
    by now apply view_applies_no_code.
  split; [|split; [exact Hnone|]].
  - rewrite (view_writes_what_the_sweep_writes BASKET_TIMEOUT db ud0 user_id
               now).
    apply lazy_sweep_database_of_any_session.
  - destruct (handle_view_basket BASKET_TIMEOUT db ud0 user_id now)
      as [db1 ud1].
    cbn [fst snd] in *.
    intros db2 ud2 total snapshot code. unfold prepare_checkout.
    pose proof (lazy_sweep_applies_no_code BASKET_TIMEOUT db1 ud1 user_id
                  later Hnone) as Hswept.
    destruct (clear_expired_basket BASKET_TIMEOUT db1 ud1 user_id later)
      as [db3 ud3].
    cbn [snd] in Hswept.
    destruct (basket ud3).
    { destruct (handle_view_basket _ _ _ _ _); discriminate. }
    destruct (flat_map _ _) as [|line lines]; [discriminate|].
    unfold checkout_total. rewrite Hswept.
    destruct (Qlt_bool _ 0); [discriminate|].
    destruct (Qle_bool _ _); [|discriminate].
    intro H. injection H as <- <- <- <- <-. now repeat split.
Qed.

Lemma removed_code_is_not_charged_witness :
  let removed :=
    remove_discount 900 ready_to_pay_with_codes
      (mkUserData [mkItem 1 10 0] (Some (mkApplied "FIVE" 5 5)) None) 1 5 in
  exists db2 ud2 snapshot,
    prepare_checkout 900 (fst removed) (snd removed) 1 6
    = Pay db2 ud2 10 snapshot None
    /\ (10 : Q) = basket_total snapshot.
Proof.
  intro removed. eexists _, _, _. split; [reflexivity|].
  destruct (removed_code_is_not_charged 900 ready_to_pay_with_codes
              (mkUserData [mkItem 1 10 0] (Some (mkApplied "FIVE" 5 5)) None)
              1 5 6) as (_ & _ & H).
  destruct (H _ _ _ _ _ eq_refl) as (_ & Htotal & _). exact Htotal.
Defined.

(** ** Sample runs of the settlement and of a top-up *)

Lemma settlement_never_overdraws_witness :
  let result :=
    process_purchase_with_balance ready_to_pay session_since_0 1 10
      [mkItem 1 10 0] None 5 in
  exists u',
    select_user (pr_db result) 1 = Some u'
    /\ u_balance u' = (100 - 10)%Q.
Proof.
  intro result.
  destruct (settlement_never_overdraws ready_to_pay session_since_0 1 10
              [mkItem 1 10 0] None 5) as [_ H].
  destruct (H eq_refl) as (u & u' & Hu & Hu' & Hbal & _).
  exists u'. split; [exact Hu'|].
  rewrite Hbal. injection Hu as <-. reflexivity.
Defined.

Lemma refill_credits_one_shopper_witness :
  let refilled := process_successful_refill topped_up_never 1 5 77 in
  option_map u_balance (select_user (fst refilled) 1) = Some (20 + 5)%Q.
Proof.
  intro refilled.
  destruct (refill_credits_one_shopper topped_up_never 1 5 77)
    as (_ & _ & H).
  destruct (H eq_refl) as (Hbal & _). exact Hbal.
Defined.
